(** * Finance-Website: the server actions of the account-linking workflow

    A shallow embedding of [lib/actions/dwolla.actions.ts] and of the user
    actions module (createBankAccount, exchangePublicToken, the bank queries
    and the session actions).  Every action is an [async] function whose body
    sits in a [try { .. } catch { .. }]; the embedding keeps that shape: a
    body in a state-and-exception monad, and the handler around it.

    The third-party platforms (Plaid, Dwolla, Appwrite, Next.js) are not part
    of the repository.  Their answers are the fields of a [Services] record,
    each a function of the current [World], so that an answer may depend on
    everything that happened before (a public token that was already
    consumed, a store that went down).  Every interaction with a platform is
    appended to the world's [trace] together with the answer it got.  Of the
    console output, the warnings and the error lines of the handlers are
    kept; the informational [console.log] lines are left out. *)

From Stdlib Require Import String List Bool Arith DecimalString.
From ExtLib Require Import Structures.Monad Structures.MonadExc.
Import ListNotations.
Import MonadNotation.
Local Open Scope string_scope.
Local Open Scope list_scope.
Local Open Scope monad_scope.

Set Implicit Arguments.
Local Set Warnings "-register-all".

(** ** JavaScript values *)

(** The JSON-like values that cross a platform boundary: request bodies,
    response bodies and the attributes of a stored document. *)
Inductive json : Type :=
| JUndefined
| JNull
| JStr (s : string)
| JObj (fields : list (string * json)).

(** [o[k]] on the property list of an object literal; a missing key reads
    as [undefined]. *)
Fixpoint obj_get (k : string) (fields : list (string * json)) : json :=
  match fields with
  | [] => JUndefined
  | (k', v) :: rest => if String.eqb k k' then v else obj_get k rest
  end.

Definition has_key (k : string) (j : json) : bool :=
  match j with
  | JObj fields => existsb (fun kv => String.eqb k (fst kv)) fields
  | _ => false
  end.

(** Truthiness of a [string | undefined | null]: absent and the empty string
    are falsy. *)
Definition truthy (s : option string) : bool :=
  match s with
  | Some s' => negb (String.eqb s' "")
  | None => false
  end.

(** [x || undefined] on a [string | null]. *)
Definition or_undefined (s : option string) : option string :=
  if truthy s then s else None.

(** What a JavaScript function hands back when it has no value to give. *)
Inductive absent : Type := Undefined | Null.

(** ** Errors, answers and events *)

Inductive error : Type :=
| Error (message : string)      (* [throw new Error(message)] in the actions *)
| TypeError (message : string)  (* a property read on [undefined] or [null] *)
| Rejected (detail : string).   (* a platform call that rejected or threw *)

(** The answer of a platform to one call. *)
Inductive reply (A : Type) : Type :=
| Ok (a : A)
| Fails (detail : string).
Arguments Ok {A} a.
Arguments Fails {A} detail.

(** Plaid's account entry, with the two fields the workflow reads. *)
Record AccountBase : Type := {
  account_id : option string;
  name : string
}.

Record ProcessorTokenCreateRequest : Type := {
  access_token : string;
  request_account_id : option string;
  processor : string
}.

Record LinkTokenCreateRequest : Type := {
  client_user_id : string;
  client_name : string;
  products : list string;
  language : string;
  country_codes : list string
}.

(** A Dwolla response: the [location] header and the parsed body. *)
Record Response : Type := {
  headers_location : option string;
  body : json
}.

(** An Appwrite document: its [$id] and its attributes. *)
Record Document : Type := {
  dollar_id : string;
  attributes : list (string * json)
}.

Record DocumentList : Type := {
  total : nat;
  documents : list Document
}.

Inductive collection : Type := USER_COLLECTION_ID | BANK_COLLECTION_ID.

(** [Query.equal(attribute, values)]. *)
Inductive query : Type :=
| Query_equal (attribute : string) (values : list string).

Record Session : Type := {
  session_userId : string;
  secret : string
}.

Inductive event : Type :=
| ItemPublicTokenExchange (public_token : string) (r : reply (string * string))
| AccountsGet (token : string) (r : reply (list AccountBase))
| ProcessorTokenCreate (req : ProcessorTokenCreateRequest) (r : reply string)
| LinkTokenCreate (req : LinkTokenCreateRequest) (r : reply string)
| DwollaPost (path : string) (payload : option json) (r : reply Response)
| CreateAdminClient (r : reply unit)
| CreateSessionClient (r : reply unit)
| CreateDocument (c : collection) (data : list (string * json)) (r : reply Document)
| ListDocuments (c : collection) (q : query) (r : reply DocumentList)
| AccountCreate (id email password fullName : string) (r : reply (option string))
| CreateEmailPasswordSession (email password : string) (r : reply Session)
| AccountGet (r : reply (option string))
| DeleteSession (which : string) (r : reply unit)
| CookiesSet (key value : string) (r : reply unit)
| CookiesDelete (key : string) (r : reply unit)
| RevalidatePath (path : string) (r : reply unit)
| ConsoleWarn (message : string)
| ConsoleError (message : string) (e : error).

(** ** The world *)

(** The two Appwrite collections and the trace of platform interactions,
    newest first. *)
Record World : Type := {
  users : list Document;
  banks : list Document;
  trace : list event
}.

Definition record_event (ev : event) (w : World) : World :=
  {| users := users w; banks := banks w; trace := ev :: trace w |}.

Definition store (c : collection) (w : World) : list Document :=
  match c with
  | USER_COLLECTION_ID => users w
  | BANK_COLLECTION_ID => banks w
  end.

Definition insert_document (c : collection) (d : Document) (w : World) : World :=
  match c with
  | USER_COLLECTION_ID =>
      {| users := users w ++ [d]; banks := banks w; trace := trace w |}
  | BANK_COLLECTION_ID =>
      {| users := users w; banks := banks w ++ [d]; trace := trace w |}
  end.

(** The platforms.  [account_create] answers with the [$id] of the new
    account, [account_get] with that of the session's account.
    [createDocument_fault] and [listDocuments_fault] say whether the store
    rejects the call; what a call that goes through does to the collections
    is fixed below.  [encryptId] and [extractCustomerIdFromUrl] are helpers
    of [../utils], which is not among the sources: functions of their
    argument alone, which may throw. *)
Record Services : Type := {
  itemPublicTokenExchange : World -> string -> reply (string * string);
  accountsGet : World -> string -> reply (list AccountBase);
  processorTokenCreate : World -> ProcessorTokenCreateRequest -> reply string;
  linkTokenCreate : World -> LinkTokenCreateRequest -> reply string;
  dwollaClient_post : World -> string -> option json -> reply Response;
  createAdminClient : World -> reply unit;
  createSessionClient : World -> reply unit;
  ID_unique : World -> string;
  createDocument_fault : World -> collection -> list (string * json) -> reply unit;
  listDocuments_fault : World -> collection -> query -> reply unit;
  account_create : World -> string -> string -> string -> string -> reply (option string);
  account_createEmailPasswordSession : World -> string -> string -> reply Session;
  account_get : World -> reply (option string);
  account_deleteSession : World -> string -> reply unit;
  cookies_set : World -> string -> string -> reply unit;
  cookies_delete : World -> string -> reply unit;
  next_revalidatePath : World -> string -> reply unit;
  encryptId : string -> reply string;
  extractCustomerIdFromUrl : string -> reply string
}.

(** ** The monad of an action *)

Inductive outcome (A : Type) : Type :=
| Return (a : A)
| Throw (e : error).
Arguments Return {A} a.
Arguments Throw {A} e.

(** An action runs in a world and ends by returning or by throwing; what it
    did to the world stays done in both cases. *)
Definition M (A : Type) : Type := World -> outcome A * World.

#[global] Instance Monad_M : Monad M := {
  ret := fun A (a : A) (w : World) => (Return a, w);
  bind := fun A B (m : M A) (k : A -> M B) (w : World) =>
    match m w with
    | (Return a, w') => k a w'
    | (Throw e, w') => (Throw e, w')
    end
}.

#[global] Instance MonadExc_M : MonadExc error M := {
  raise := fun A (e : error) (w : World) => (Throw e, w);
  catch := fun A (m : M A) (h : error -> M A) (w : World) =>
    match m w with
    | (Return a, w') => (Return a, w')
    | (Throw e, w') => h e w'
    end
}.

(** [await] of a platform call: the answer is looked up in the current
    world, the call is recorded, and a rejection becomes an exception. *)
Definition await {A : Type} (ask : World -> reply A) (ev : reply A -> event) : M A :=
  fun w =>
    match ask w with
    | Ok a => (Return a, record_event (ev (Ok a)) w)
    | Fails d => (Throw (Rejected d), record_event (ev (Fails d)) w)
    end.

Definition emit (ev : event) : M unit :=
  fun w => (Return tt, record_event ev w).

(** Modelled from the spec: [parseStringify] lives in [../utils], which is
    not among the sources.  The spec has every action hand its value to the
    caller as it is (a look-up returns the record, the linking call a
    completion marker), so the helper is the identity here. *)
Definition parseStringify {A : Type} (a : A) : A := a.

(** A property read [j.k]: it throws on [undefined] and [null]. *)
Definition get_property (j : json) (k : string) : M json :=
  match j with
  | JUndefined | JNull => raise (TypeError k)
  | JStr _ => ret JUndefined
  | JObj fields => ret (obj_get k fields)
  end.

(** ** Parameter records *)

(** [NewDwollaCustomerParams] as [dwolla.actions.ts] declares it: [state]
    is optional. *)
Record NewDwollaCustomerParams : Type := {
  firstName : string;
  lastName : string;
  email : string;
  address1 : string;
  city : string;
  state : option string;
  postalCode : string;
  dateOfBirth : string;
  ssn : string;
  type_ : string
}.

Record CreateFundingSourceOptions : Type := {
  customerId : string;
  fundingSourceName : string;
  plaidToken : string;
  _links : json
}.

Record TransferParams : Type := {
  sourceFundingSourceUrl : string;
  destinationFundingSourceUrl : string;
  amount : string
}.

Record AddFundingSourceParams : Type := {
  dwollaCustomerId : string;
  processorToken : string;
  bankName : string
}.

(** The customer object as it goes out: [createDwollaCustomer] posts its
    argument itself, so the body has the key [state] only when the caller
    gave a state. *)
Definition customer_json (c : NewDwollaCustomerParams) : json :=
  JObj ([ ("firstName", JStr (firstName c));
          ("lastName", JStr (lastName c));
          ("email", JStr (email c));
          ("address1", JStr (address1 c));
          ("city", JStr (city c)) ]
        ++ match state c with
           | Some s => [ ("state", JStr s) ]
           | None => []
           end
        ++ [ ("postalCode", JStr (postalCode c));
             ("dateOfBirth", JStr (dateOfBirth c));
             ("ssn", JStr (ssn c));
             ("type", JStr (type_ c)) ]).

(** The body of a funding-source request, as [createFundingSource] writes
    it. *)
Definition funding_source_json (options : CreateFundingSourceOptions) : json :=
  JObj [ ("name", JStr (fundingSourceName options));
         ("plaidToken", JStr (plaidToken options)) ].

(** The body of a transfer request, as [createTransfer] writes it. *)
Definition transfer_json (p : TransferParams) : json :=
  JObj [ ("_links",
          JObj [ ("source", JObj [ ("href", JStr (sourceFundingSourceUrl p)) ]);
                 ("destination",
                  JObj [ ("href", JStr (destinationFundingSourceUrl p)) ]) ]);
         ("amount",
          JObj [ ("currency", JStr "USD");
                 ("value", JStr (amount p)) ]) ].

(** ** dwolla.actions.ts *)

Section DwollaActions.

Variable svc : Services.

Definition post (path : string) (payload : option json) : M Response :=
  await (fun w => dwollaClient_post svc w path payload) (DwollaPost path payload).

Definition console_error (message : string) (e : error) : M unit :=
  emit (ConsoleError message e).

Definition console_warn (message : string) : M unit :=
  emit (ConsoleWarn message).

Definition createFundingSource_body (options : CreateFundingSourceOptions)
  : M (option string) :=
  res <- post ("customers/" ++ customerId options ++ "/funding-sources")
              (Some (funding_source_json options)) ;;
  ret (or_undefined (headers_location res)).

Definition createFundingSource (options : CreateFundingSourceOptions)
  : M (option string) :=
  catch (createFundingSource_body options)
        (fun err =>
           console_error "Creating a Funding Source Failed: " err ;;
           ret None).

Definition createOnDemandAuthorization_body : M json :=
  onDemandAuthorization <- post "on-demand-authorizations" None ;;
  authLink <- get_property (body onDemandAuthorization) "_links" ;;
  ret authLink.

(** The handler logs and falls off its end: the caller gets [undefined]. *)
Definition createOnDemandAuthorization : M json :=
  catch createOnDemandAuthorization_body
        (fun err =>
           console_error "Creating an On Demand Authorization Failed: " err ;;
           ret JUndefined).

Definition createDwollaCustomer_body (newCustomer : NewDwollaCustomerParams)
  : M (option string) :=
  res <- post "customers" (Some (customer_json newCustomer)) ;;
  ret (or_undefined (headers_location res)).

Definition createDwollaCustomer (newCustomer : NewDwollaCustomerParams)
  : M (option string) :=
  catch (createDwollaCustomer_body newCustomer)
        (fun err =>
           console_error "Creating a Dwolla Customer Failed: " err ;;
           ret None).

Definition createTransfer_body (p : TransferParams) : M (option string) :=
  let requestBody := transfer_json p in
  res <- post "transfers" (Some requestBody) ;;
  ret (or_undefined (headers_location res)).

Definition createTransfer (p : TransferParams) : M (option string) :=
  catch (createTransfer_body p)
        (fun err =>
           console_error "Transfer fund failed: " err ;;
           ret None).

Definition addFundingSource_body (p : AddFundingSourceParams)
  : M (option string) :=
  dwollaAuthLinks <- createOnDemandAuthorization ;;
  let fundingSourceOptions :=
    {| customerId := dwollaCustomerId p;
       fundingSourceName := bankName p;
       plaidToken := processorToken p;
       _links := dwollaAuthLinks |} in
  createFundingSource fundingSourceOptions.

Definition addFundingSource (p : AddFundingSourceParams) : M (option string) :=
  catch (addFundingSource_body p)
        (fun err =>
           console_error "Transfer fund failed: " err ;;
           ret None).

End DwollaActions.

(** ** The user actions module *)

Record User : Type := {
  user_id : string;                 (* [user.$id] *)
  user_dwollaCustomerId : string;
  user_firstName : string;
  user_lastName : string
}.

Module SignUpParams.
Record t : Type := {
  password : string;
  email : string;
  firstName : string;
  lastName : string;
  address1 : string;
  city : string;
  state : string;
  postalCode : string;
  dateOfBirth : string;
  ssn : string
}.
End SignUpParams.

(** The values that reach [createBankAccount] are passed on as they are, a
    possibly absent string staying possibly absent. *)
Record createBankAccountProps : Type := {
  userId : string;
  bankId : string;
  accountId : option string;
  accessToken : string;
  fundingSourceUrl : option string;
  shareableId : option string
}.

Record PublicTokenExchange : Type := {
  publicTokenExchange : string
}.

Record LinkToken : Type := {
  linkToken : string
}.

Definition jstr (s : option string) : json :=
  match s with
  | Some s' => JStr s'
  | None => JUndefined
  end.

(** The object literal that [createBankAccount] hands to the store. *)
Definition bank_account_data (p : createBankAccountProps) : list (string * json) :=
  [ ("userId", JStr (userId p));
    ("bankId", JStr (bankId p));
    ("accountId", jstr (accountId p));
    ("accessToken", JStr (accessToken p));
    ("fundingSourceUrl", jstr (fundingSourceUrl p));
    ("shareableId", jstr (shareableId p)) ].

(** Whether a document satisfies [Query.equal(attribute, values)]; the
    attribute [$id] is the document's own id. *)
Definition matches (q : query) (d : Document) : bool :=
  match q with
  | Query_equal attribute values =>
      if String.eqb attribute "$id"
      then existsb (String.eqb (dollar_id d)) values
      else match obj_get attribute (attributes d) with
           | JStr s => existsb (String.eqb s) values
           | _ => false
           end
  end.

Section UserActions.

Variable svc : Services.

(** *** The Appwrite database *)

(** A listing that goes through answers with the matching documents of the
    collection and their count (paging is not modelled). *)
Definition database_listDocuments (c : collection) (q : query) : M DocumentList :=
  fun w =>
    match listDocuments_fault svc w c q with
    | Fails d =>
        (Throw (Rejected d), record_event (ListDocuments c q (Fails d)) w)
    | Ok _ =>
        let found := filter (matches q) (store c w) in
        let r := {| total := length found; documents := found |} in
        (Return r, record_event (ListDocuments c q (Ok r)) w)
    end.

(** A creation that goes through adds exactly the new document; one that is
    rejected leaves the collection as it was. *)
Definition database_createDocument (c : collection) (id : string)
    (data : list (string * json)) : M Document :=
  fun w =>
    match createDocument_fault svc w c data with
    | Fails d =>
        (Throw (Rejected d), record_event (CreateDocument c data (Fails d)) w)
    | Ok _ =>
        let doc := {| dollar_id := id; attributes := data |} in
        (Return doc,
         record_event (CreateDocument c data (Ok doc)) (insert_document c doc w))
    end.

Definition ID_unique_ : M string :=
  fun w => (Return (ID_unique svc w), w).

Definition admin_client : M unit :=
  await (createAdminClient svc) CreateAdminClient.

Definition session_client : M unit :=
  await (createSessionClient svc) CreateSessionClient.

(** A helper of [../utils] that computes on its argument alone. *)
Definition util {A : Type} (r : reply A) : M A :=
  fun w =>
    match r with
    | Ok a => (Return a, w)
    | Fails d => (Throw (Rejected d), w)
    end.

(** The handler shared by the actions of this module: log, return [null]. *)
Definition or_null {A : Type} (tag : string) (body_ : M (option A)) : M (option A) :=
  catch body_ (fun err => console_error tag err ;; ret None).

(** *** getUserInfo *)

Definition getUserInfo_body (userId_ : string) : M (option Document) :=
  admin_client ;;
  result <- database_listDocuments USER_COLLECTION_ID
                                   (Query_equal "userId" [userId_]) ;;
  match documents result with
  | [] =>
      console_warn "[getUserInfo] No user document found for userId:" ;;
      ret None
  | d :: _ => ret (Some (parseStringify d))
  end.

Definition getUserInfo (userId_ : string) : M (option Document) :=
  or_null "[getUserInfo] Error:" (getUserInfo_body userId_).

(** *** signIn *)

Definition signIn_body (email_ password_ : string) : M (option Document) :=
  admin_client ;;
  session <- await (fun w => account_createEmailPasswordSession svc w email_ password_)
                   (CreateEmailPasswordSession email_ password_) ;;
  await (fun w => cookies_set svc w "appwrite-session" (secret session))
        (CookiesSet "appwrite-session" (secret session)) ;;
  user <- getUserInfo (session_userId session) ;;
  match user with
  | None => raise (Error "User data not found during sign in.")
  | Some u => ret (Some (parseStringify u))
  end.

Definition signIn (email_ password_ : string) : M (option Document) :=
  or_null "[signIn] Error:" (signIn_body email_ password_).

(** *** signUp *)

Definition signUp_body (p : SignUpParams.t) : M (option Document) :=
  admin_client ;;
  id <- ID_unique_ ;;
  newUserAccount <-
    await (fun w => account_create svc w id (SignUpParams.email p)
                      (SignUpParams.password p)
                      (SignUpParams.firstName p ++ " " ++ SignUpParams.lastName p))
          (AccountCreate id (SignUpParams.email p) (SignUpParams.password p)
             (SignUpParams.firstName p ++ " " ++ SignUpParams.lastName p)) ;;
  match newUserAccount with
  | None => raise (Error "Error creating user")
  | Some newUserAccount_id =>
  let dwollaPayload :=
    {| firstName := SignUpParams.firstName p;
       lastName := SignUpParams.lastName p;
       email := SignUpParams.email p;
       address1 := SignUpParams.address1 p;
       city := SignUpParams.city p;
       state := Some (SignUpParams.state p);
       postalCode := SignUpParams.postalCode p;
       dateOfBirth := SignUpParams.dateOfBirth p;
       ssn := SignUpParams.ssn p;
       type_ := "personal" |} in
  dwollaCustomerUrl <- createDwollaCustomer svc dwollaPayload ;;
  match dwollaCustomerUrl with
  | None => raise (Error "Error creating Dwolla customer")
  | Some url =>
      if negb (truthy (Some url)) then raise (Error "Error creating Dwolla customer")
      else
        dwollaCustomerId_ <- util (extractCustomerIdFromUrl svc url) ;;
        let newUserData :=
          [ ("email", JStr (SignUpParams.email p));
            ("firstName", JStr (SignUpParams.firstName p));
            ("lastName", JStr (SignUpParams.lastName p));
            ("address1", JStr (SignUpParams.address1 p));
            ("city", JStr (SignUpParams.city p));
            ("postalCode", JStr (SignUpParams.postalCode p));
            ("dateOfBirth", JStr (SignUpParams.dateOfBirth p));
            ("ssn", JStr (SignUpParams.ssn p));
            ("userId", JStr newUserAccount_id);
            ("dwollaCustomerId", JStr dwollaCustomerId_);
            ("dwollaCustomerUrl", JStr url) ] in
        docId <- ID_unique_ ;;
        newUser <- database_createDocument USER_COLLECTION_ID docId newUserData ;;
        session <- await (fun w => account_createEmailPasswordSession svc w
                                     (SignUpParams.email p) (SignUpParams.password p))
                         (CreateEmailPasswordSession (SignUpParams.email p)
                            (SignUpParams.password p)) ;;
        await (fun w => cookies_set svc w "appwrite-session" (secret session))
              (CookiesSet "appwrite-session" (secret session)) ;;
        ret (Some (parseStringify newUser))
  end
  end.

Definition signUp (p : SignUpParams.t) : M (option Document) :=
  or_null "[signUp] Error:" (signUp_body p).


(** *** getLoggedInUser *)

Definition getLoggedInUser_body : M (option Document) :=
  session_client ;;
  result <- await (account_get svc) AccountGet ;;
  match result with
  | None =>
      console_warn "[getLoggedInUser] No user session found." ;;
      ret None
  | Some result_id =>
      if negb (truthy (Some result_id)) then
        console_warn "[getLoggedInUser] No user session found." ;;
        ret None
      else
        user <- getUserInfo result_id ;;
        match user with
        | None =>
            console_warn "[getLoggedInUser] No user data found for logged in user." ;;
            ret None
        | Some u => ret (Some (parseStringify u))
        end
  end.

Definition getLoggedInUser : M (option Document) :=
  or_null "[getLoggedInUser] Error:" getLoggedInUser_body.

(** *** logoutAccount *)

Definition logoutAccount_body : M absent :=
  session_client ;;
  await (fun w => cookies_delete svc w "appwrite-session")
        (CookiesDelete "appwrite-session") ;;
  await (fun w => account_deleteSession svc w "current") (DeleteSession "current") ;;
  ret Undefined.

Definition logoutAccount : M absent :=
  catch logoutAccount_body
        (fun err => console_error "[logoutAccount] Error:" err ;; ret Null).

(** *** createLinkToken *)

Definition createLinkToken_body (user : User) : M (option LinkToken) :=
  let tokenParams :=
    {| client_user_id := user_id user;
       client_name := user_firstName user ++ " " ++ user_lastName user;
       products := ["auth"];
       language := "en";
       country_codes := ["US"] |} in
  link_token <- await (fun w => linkTokenCreate svc w tokenParams)
                      (LinkTokenCreate tokenParams) ;;
  ret (Some (parseStringify {| linkToken := link_token |})).

Definition createLinkToken (user : User) : M (option LinkToken) :=
  or_null "[createLinkToken] Error:" (createLinkToken_body user).

(** *** createBankAccount *)

Definition createBankAccount_body (p : createBankAccountProps) : M (option Document) :=
  admin_client ;;
  id <- ID_unique_ ;;
  bankAccount <- database_createDocument BANK_COLLECTION_ID id (bank_account_data p) ;;
  ret (Some (parseStringify bankAccount)).

Definition createBankAccount (p : createBankAccountProps) : M (option Document) :=
  or_null "[createBankAccount] Error:" (createBankAccount_body p).

(** *** exchangePublicToken *)

Definition revalidatePath (path : string) : M unit :=
  await (fun w => next_revalidatePath svc w path) (RevalidatePath path).

Definition exchangePublicToken_body (publicToken : string) (user : User)
  : M (option PublicTokenExchange) :=
  response <- await (fun w => itemPublicTokenExchange svc w publicToken)
                    (ItemPublicTokenExchange publicToken) ;;
  let accessToken_ := fst response in
  let itemId := snd response in
  accounts <- await (fun w => accountsGet svc w accessToken_)
                    (AccountsGet accessToken_) ;;
  match accounts with
  | [] => raise (Error "Invalid account data received from Plaid.")
  | accountData :: _ =>
      if negb (truthy (account_id accountData))
      then raise (Error "Invalid account data received from Plaid.")
      else
        let request :=
          {| access_token := accessToken_;
             request_account_id := account_id accountData;
             processor := "dwolla" |} in
        processorToken_ <- await (fun w => processorTokenCreate svc w request)
                                 (ProcessorTokenCreate request) ;;
        fundingSourceUrl_ <-
          addFundingSource svc
            {| dwollaCustomerId := user_dwollaCustomerId user;
               processorToken := processorToken_;
               bankName := name accountData |} ;;
        if negb (truthy fundingSourceUrl_)
        then raise (Error "Error creating funding source")
        else
          shareableId_ <-
            match account_id accountData with
            | Some id =>
                if truthy (Some id)
                then (s <- util (encryptId svc id) ;; ret (Some s))
                else ret None
            | None => ret None
            end ;;
          if negb (truthy shareableId_)
          then raise (Error "Failed to generate shareableId")
          else
            createBankAccount
              {| userId := user_id user;
                 bankId := itemId;
                 accountId := account_id accountData;
                 accessToken := accessToken_;
                 fundingSourceUrl := fundingSourceUrl_;
                 shareableId := shareableId_ |} ;;
            revalidatePath "/" ;;
            ret (Some (parseStringify {| publicTokenExchange := "complete" |}))
  end.

(** The same body with the [null] arm of the shareableId conditional
    replaced by an arbitrary computation [otherwise]; it is compared with
    [exchangePublicToken_body] below. *)
Definition exchangePublicToken_body_with (otherwise : M (option string))
    (publicToken : string) (user : User)
  : M (option PublicTokenExchange) :=
  response <- await (fun w => itemPublicTokenExchange svc w publicToken)
                    (ItemPublicTokenExchange publicToken) ;;
  let accessToken_ := fst response in
  let itemId := snd response in
  accounts <- await (fun w => accountsGet svc w accessToken_)
                    (AccountsGet accessToken_) ;;
  match accounts with
  | [] => raise (Error "Invalid account data received from Plaid.")
  | accountData :: _ =>
      if negb (truthy (account_id accountData))
      then raise (Error "Invalid account data received from Plaid.")
      else
        let request :=
          {| access_token := accessToken_;
             request_account_id := account_id accountData;
             processor := "dwolla" |} in
        processorToken_ <- await (fun w => processorTokenCreate svc w request)
                                 (ProcessorTokenCreate request) ;;
        fundingSourceUrl_ <-
          addFundingSource svc
            {| dwollaCustomerId := user_dwollaCustomerId user;
               processorToken := processorToken_;
               bankName := name accountData |} ;;
        if negb (truthy fundingSourceUrl_)
        then raise (Error "Error creating funding source")
        else
          shareableId_ <-
            match account_id accountData with
            | Some id =>
                if truthy (Some id)
                then (s <- util (encryptId svc id) ;; ret (Some s))
                else otherwise
            | None => otherwise
            end ;;
          if negb (truthy shareableId_)
          then raise (Error "Failed to generate shareableId")
          else
            createBankAccount
              {| userId := user_id user;
                 bankId := itemId;
                 accountId := account_id accountData;
                 accessToken := accessToken_;
                 fundingSourceUrl := fundingSourceUrl_;
                 shareableId := shareableId_ |} ;;
            revalidatePath "/" ;;
            ret (Some (parseStringify {| publicTokenExchange := "complete" |}))
  end.

Definition exchangePublicToken (publicToken : string) (user : User)
  : M (option PublicTokenExchange) :=
  or_null "[exchangePublicToken] Error:" (exchangePublicToken_body publicToken user).

(** *** getBanks, getBank, getBankByAccountId *)

Definition getBanks_body (userId_ : string) : M (option (list Document)) :=
  admin_client ;;
  banks_ <- database_listDocuments BANK_COLLECTION_ID
                                   (Query_equal "userId" [userId_]) ;;
  ret (Some (parseStringify (documents banks_))).

Definition getBanks (userId_ : string) : M (option (list Document)) :=
  or_null "[getBanks] Error:" (getBanks_body userId_).

Definition getBank_body (documentId : string) : M (option Document) :=
  admin_client ;;
  bank <- database_listDocuments BANK_COLLECTION_ID
                                 (Query_equal "$id" [documentId]) ;;
  match documents bank with
  | [] =>
      console_warn "[getBank] No bank document found for documentId:" ;;
      ret None
  | d :: _ => ret (Some (parseStringify d))
  end.

Definition getBank (documentId : string) : M (option Document) :=
  or_null "[getBank] Error:" (getBank_body documentId).

Definition getBankByAccountId_body (accountId_ : string) : M (option Document) :=
  admin_client ;;
  bank <- database_listDocuments BANK_COLLECTION_ID
                                 (Query_equal "accountId" [accountId_]) ;;
  if negb (Nat.eqb (total bank) 1) then
    console_warn "[getBankByAccountId] No unique bank document found for accountId:" ;;
    ret None
  else
    match documents bank with
    | [] => raise (TypeError "$id")
    | d :: _ => ret (Some (parseStringify d))
    end.

Definition getBankByAccountId (accountId_ : string) : M (option Document) :=
  or_null "[getBankByAccountId] Error:" (getBankByAccountId_body accountId_).

End UserActions.

(** ** Reading a request body *)

(** [j.k1.k2...]: the value under a path of keys, [undefined] when the path
    leaves the objects. *)
Fixpoint json_at (path : list string) (j : json) : json :=
  match path with
  | [] => j
  | k :: rest =>
      match j with
      | JObj fields => json_at rest (obj_get k fields)
      | _ => JUndefined
      end
  end.

(** The BankLinks of the ledger for one external account id. *)
Definition bank_links_for (accountId_ : string) (w : World) : list Document :=
  filter (fun d =>
            match obj_get "accountId" (attributes d) with
            | JStr s => String.eqb s accountId_
            | _ => false
            end)
         (banks w).

(** ** A linking scenario

    Concrete platforms for the scenario of the specification: the public
    token [tok_valid] is exchanged for [acc_1] and [item_1] once and is
    rejected afterwards, the only account is [a1], the processor token is
    [proc_1] and the funding source is created at [.../fs1].  The list of
    accounts, the encoding and three switches (authorization endpoint,
    funding-source endpoint, store) can be varied. *)
Module Scenario.

(** A stand-in for the pair [encryptId]/[decryptId] of [../utils]: any
    reversible encoding does. *)
Definition encode (id : string) : string := ("id:" ++ id)%string.

Definition decode (s : string) : string :=
  match s with
  | String _ (String _ (String _ rest)) => rest
  | _ => ""
  end.

Definition consumed (tok : string) (t : list event) : bool :=
  existsb (fun ev =>
             match ev with
             | ItemPublicTokenExchange tok' (Ok _) => String.eqb tok tok'
             | _ => false
             end) t.

Definition checking : AccountBase :=
  {| account_id := Some "a1"; name := "Checking" |}.

Definition authorization : json :=
  JObj [ ("_links",
          JObj [ ("self",
                  JObj [ ("href",
                          JStr "https://api.dwolla.com/on-demand-authorizations/oda1") ]) ]) ].

Definition fs1 : string := "https://api.dwolla.com/funding-sources/fs1".

Definition dwolla (authorization_up funding_up : bool) (w : World)
    (path : string) (payload : option json) : reply Response :=
  if String.eqb path "on-demand-authorizations" then
    if authorization_up
    then Ok {| headers_location := None; body := authorization |}
    else Fails "503 Service Unavailable"
  else if String.eqb path "customers/cust_1/funding-sources" then
    if funding_up
    then Ok {| headers_location := Some fs1; body := JUndefined |}
    else Fails "400 Bad Request"
  else if String.eqb path "transfers" then
    Ok {| headers_location := Some "https://api.dwolla.com/transfers/t1";
          body := JUndefined |}
  else Fails "404 Not Found".

Definition up (b : bool) : reply unit :=
  if b then Ok tt else Fails "store unavailable".

Definition services (accounts : list AccountBase)
    (authorization_up funding_up store_up : bool)
    (encrypt : string -> reply string) : Services :=
  {| itemPublicTokenExchange := fun w tok =>
       if String.eqb tok "tok_valid" && negb (consumed tok (trace w))
       then Ok ("acc_1", "item_1")
       else Fails "INVALID_PUBLIC_TOKEN";
     accountsGet := fun _ tok =>
       if String.eqb tok "acc_1" then Ok accounts else Fails "INVALID_ACCESS_TOKEN";
     processorTokenCreate := fun _ _ => Ok "proc_1";
     linkTokenCreate := fun _ _ => Ok "link_1";
     dwollaClient_post := dwolla authorization_up funding_up;
     createAdminClient := fun _ => up store_up;
     createSessionClient := fun _ => up store_up;
     ID_unique := fun w =>
       ("doc_" ++ NilZero.string_of_uint
                    (Nat.to_uint (length (users w) + length (banks w))))%string;
     createDocument_fault := fun _ _ _ => Ok tt;
     listDocuments_fault := fun _ _ _ => Ok tt;
     account_create := fun _ id _ _ _ => Ok (Some id);
     account_createEmailPasswordSession := fun _ _ _ =>
       Ok {| session_userId := "user_1"; secret := "s3cr3t" |};
     account_get := fun _ => Ok (Some "user_1");
     account_deleteSession := fun _ _ => Ok tt;
     cookies_set := fun _ _ _ => Ok tt;
     cookies_delete := fun _ _ => Ok tt;
     next_revalidatePath := fun _ _ => Ok tt;
     encryptId := encrypt;
     extractCustomerIdFromUrl := fun _ => Ok "cust_1" |}.

Definition healthy : Services :=
  services [checking] true true true (fun id => Ok (encode id)).

Definition genesis : World := {| users := []; banks := []; trace := [] |}.

Definition alice : User :=
  {| user_id := "user_1";
     user_dwollaCustomerId := "cust_1";
     user_firstName := "Alice";
     user_lastName := "Doe" |}.

Definition link_a1 : Document :=
  {| dollar_id := "doc_0";
     attributes :=
       [ ("userId", JStr "user_1");
         ("bankId", JStr "item_1");
         ("accountId", JStr "a1");
         ("accessToken", JStr "acc_1");
         ("fundingSourceUrl", JStr fs1);
         ("shareableId", JStr "id:a1") ] |}.

End Scenario.

(** ** The stages of the linking workflow

    The world in which each step of [exchangePublicToken] runs, given the
    answers of the steps before it. *)

Definition after_exchange (publicToken : string) (tokens : string * string)
    (w : World) : World :=
  record_event (ItemPublicTokenExchange publicToken (Ok tokens)) w.

Definition after_accounts (publicToken : string) (tokens : string * string)
    (accounts : list AccountBase) (w : World) : World :=
  record_event (AccountsGet (fst tokens) (Ok accounts))
               (after_exchange publicToken tokens w).

Definition processor_request (tokens : string * string) (accountData : AccountBase)
  : ProcessorTokenCreateRequest :=
  {| access_token := fst tokens;
     request_account_id := account_id accountData;
     processor := "dwolla" |}.

Definition after_processor_token (publicToken : string) (tokens : string * string)
    (accounts : list AccountBase) (accountData : AccountBase)
    (processorToken_ : string) (w : World) : World :=
  record_event (ProcessorTokenCreate (processor_request tokens accountData)
                                     (Ok processorToken_))
               (after_accounts publicToken tokens accounts w).

Definition funding_request (user : User) (accountData : AccountBase)
    (processorToken_ : string) : AddFundingSourceParams :=
  {| dwollaCustomerId := user_dwollaCustomerId user;
     processorToken := processorToken_;
     bankName := name accountData |}.

(** The BankLink that the workflow writes. *)
Definition bank_link_data (user : User) (tokens : string * string)
    (id url shareable : string) : list (string * json) :=
  [ ("userId", JStr (user_id user));
    ("bankId", JStr (snd tokens));
    ("accountId", JStr id);
    ("accessToken", JStr (fst tokens));
    ("fundingSourceUrl", JStr url);
    ("shareableId", JStr shareable) ].

Definition complete : PublicTokenExchange :=
  {| publicTokenExchange := "complete" |}.

(** * Properties *)

Unset Implicit Arguments.

(** Events by kind. *)
Definition persists (ev : event) : bool :=
  match ev with
  | CreateDocument BANK_COLLECTION_ID _ _ => true
  | _ => false
  end.

Definition provisions (ev : event) : bool :=
  match ev with
  | DwollaPost _ _ _ => true
  | _ => false
  end.

(** An action that always comes back to its caller with a value. *)
Definition returns {A : Type} (m : M A) : Prop :=
  forall w, exists v w', m w = (Return v, w').

(** [action] is [body] with every exception of the body turned into the
    value [none]. *)
Definition reports_absence {A : Type} (none : A) (action body_ : M A) : Prop :=
  forall w,
    match body_ w with
    | (Return v, _) => fst (action w) = Return v
    | (Throw _, _) => fst (action w) = Return none
    end.

Definition contained {A : Type} (none : A) (action body_ : M A) : Prop :=
  returns action /\ reports_absence none action body_.

(** The documents of a collection that a query selects. *)
Definition selected (c : collection) (q : query) (w : World) : list Document :=
  filter (matches q) (store c w).

(** Whether the store serves a listing asked in world [w]: the admin client
    is created, then the listing itself is accepted. *)
Definition store_answers (svc : Services) (c : collection) (q : query)
    (w : World) : bool :=
  match createAdminClient svc w with
  | Ok _ =>
      match listDocuments_fault svc (record_event (CreateAdminClient (Ok tt)) w) c q with
      | Ok _ => true
      | Fails _ => false
      end
  | Fails _ => false
  end.

(** ** Effects on the store *)

(** The events that change a collection. *)
Definition writes (ev : event) : bool :=
  match ev with
  | CreateDocument _ _ _ => true
  | _ => false
  end.

(** The events that reach the Appwrite database at all. *)
Definition touches_store (ev : event) : bool :=
  match ev with
  | CreateAdminClient _ | CreateDocument _ _ _ | ListDocuments _ _ _ => true
  | _ => false
  end.

(** An action that leaves both collections as they are, whatever its
    outcome, and only adds events to the trace, none of them a write. *)
Definition read_only {A : Type} (m : M A) : Prop :=
  forall w,
    users (snd (m w)) = users w /\ banks (snd (m w)) = banks w /\
    exists new, trace (snd (m w)) = new ++ trace w /\ existsb writes new = false.

(** An action that keeps every document of both collections and appends at
    most [ku] user documents and [kb] bank documents, whatever its outcome. *)
Definition adds_at_most {A : Type} (ku kb : nat) (m : M A) : Prop :=
  forall w,
    (exists docs, users (snd (m w)) = users w ++ docs /\ length docs <= ku) /\
    (exists docs, banks (snd (m w)) = banks w ++ docs /\ length docs <= kb).

Definition has_userId (userId_ : string) (d : Document) : bool :=
  match obj_get "userId" (attributes d) with
  | JStr s => String.eqb s userId_
  | _ => false
  end.

(** The user documents of one account, and the BankLinks of one user. *)
Definition user_documents_of (userId_ : string) (w : World) : list Document :=
  filter (has_userId userId_) (users w).

Definition bank_links_of_user (userId_ : string) (w : World) : list Document :=
  filter (has_userId userId_) (banks w).

(** What [exchangePublicToken] hands to [createBankAccount]. *)
Definition link_props (user : User) (tokens : string * string)
    (accountData : AccountBase) (url shareable : string) : createBankAccountProps :=
  {| userId := user_id user;
     bankId := snd tokens;
     accountId := account_id accountData;
     accessToken := fst tokens;
     fundingSourceUrl := Some url;
     shareableId := Some shareable |}.

(** ** The stages of the session actions *)




Definition fullName (p : SignUpParams.t) : string :=
  SignUpParams.firstName p ++ " " ++ SignUpParams.lastName p.

(** The customer that [signUp] registers at Dwolla. *)
Definition dwollaPayload (p : SignUpParams.t) : NewDwollaCustomerParams :=
  {| firstName := SignUpParams.firstName p;
     lastName := SignUpParams.lastName p;
     email := SignUpParams.email p;
     address1 := SignUpParams.address1 p;
     city := SignUpParams.city p;
     state := Some (SignUpParams.state p);
     postalCode := SignUpParams.postalCode p;
     dateOfBirth := SignUpParams.dateOfBirth p;
     ssn := SignUpParams.ssn p;
     type_ := "personal" |}.

(** The user document that [signUp] writes. *)
Definition newUserData (p : SignUpParams.t) (newUserAccount_id dwollaCustomerId_
    dwollaCustomerUrl : string) : list (string * json) :=
  [ ("email", JStr (SignUpParams.email p));
    ("firstName", JStr (SignUpParams.firstName p));
    ("lastName", JStr (SignUpParams.lastName p));
    ("address1", JStr (SignUpParams.address1 p));
    ("city", JStr (SignUpParams.city p));
    ("postalCode", JStr (SignUpParams.postalCode p));
    ("dateOfBirth", JStr (SignUpParams.dateOfBirth p));
    ("ssn", JStr (SignUpParams.ssn p));
    ("userId", JStr newUserAccount_id);
    ("dwollaCustomerId", JStr dwollaCustomerId_);
    ("dwollaCustomerUrl", JStr dwollaCustomerUrl) ].


(** ** Variations of the scenario

    The scenario with one platform call answering differently, a user
    document for [alice], and a sign-up. *)
Module Variation.

Definition with_accountsGet
    (f : World -> string -> reply (list AccountBase))
    (svc : Services) : Services :=
  {| itemPublicTokenExchange := itemPublicTokenExchange svc;
     accountsGet := f;
     processorTokenCreate := processorTokenCreate svc;
     linkTokenCreate := linkTokenCreate svc;
     dwollaClient_post := dwollaClient_post svc;
     createAdminClient := createAdminClient svc;
     createSessionClient := createSessionClient svc;
     ID_unique := ID_unique svc;
     createDocument_fault := createDocument_fault svc;
     listDocuments_fault := listDocuments_fault svc;
     account_create := account_create svc;
     account_createEmailPasswordSession := account_createEmailPasswordSession svc;
     account_get := account_get svc;
     account_deleteSession := account_deleteSession svc;
     cookies_set := cookies_set svc;
     cookies_delete := cookies_delete svc;
     next_revalidatePath := next_revalidatePath svc;
     encryptId := encryptId svc;
     extractCustomerIdFromUrl := extractCustomerIdFromUrl svc |}.

Definition with_processorTokenCreate
    (f : World -> ProcessorTokenCreateRequest -> reply string)
    (svc : Services) : Services :=
  {| itemPublicTokenExchange := itemPublicTokenExchange svc;
     accountsGet := accountsGet svc;
     processorTokenCreate := f;
     linkTokenCreate := linkTokenCreate svc;
     dwollaClient_post := dwollaClient_post svc;
     createAdminClient := createAdminClient svc;
     createSessionClient := createSessionClient svc;
     ID_unique := ID_unique svc;
     createDocument_fault := createDocument_fault svc;
     listDocuments_fault := listDocuments_fault svc;
     account_create := account_create svc;
     account_createEmailPasswordSession := account_createEmailPasswordSession svc;
     account_get := account_get svc;
     account_deleteSession := account_deleteSession svc;
     cookies_set := cookies_set svc;
     cookies_delete := cookies_delete svc;
     next_revalidatePath := next_revalidatePath svc;
     encryptId := encryptId svc;
     extractCustomerIdFromUrl := extractCustomerIdFromUrl svc |}.

Definition with_dwollaClient_post
    (f : World -> string -> option json -> reply Response)
    (svc : Services) : Services :=
  {| itemPublicTokenExchange := itemPublicTokenExchange svc;
     accountsGet := accountsGet svc;
     processorTokenCreate := processorTokenCreate svc;
     linkTokenCreate := linkTokenCreate svc;
     dwollaClient_post := f;
     createAdminClient := createAdminClient svc;
     createSessionClient := createSessionClient svc;
     ID_unique := ID_unique svc;
     createDocument_fault := createDocument_fault svc;
     listDocuments_fault := listDocuments_fault svc;
     account_create := account_create svc;
     account_createEmailPasswordSession := account_createEmailPasswordSession svc;
     account_get := account_get svc;
     account_deleteSession := account_deleteSession svc;
     cookies_set := cookies_set svc;
     cookies_delete := cookies_delete svc;
     next_revalidatePath := next_revalidatePath svc;
     encryptId := encryptId svc;
     extractCustomerIdFromUrl := extractCustomerIdFromUrl svc |}.

Definition with_next_revalidatePath
    (f : World -> string -> reply unit)
    (svc : Services) : Services :=
  {| itemPublicTokenExchange := itemPublicTokenExchange svc;
     accountsGet := accountsGet svc;
     processorTokenCreate := processorTokenCreate svc;
     linkTokenCreate := linkTokenCreate svc;
     dwollaClient_post := dwollaClient_post svc;
     createAdminClient := createAdminClient svc;
     createSessionClient := createSessionClient svc;
     ID_unique := ID_unique svc;
     createDocument_fault := createDocument_fault svc;
     listDocuments_fault := listDocuments_fault svc;
     account_create := account_create svc;
     account_createEmailPasswordSession := account_createEmailPasswordSession svc;
     account_get := account_get svc;
     account_deleteSession := account_deleteSession svc;
     cookies_set := cookies_set svc;
     cookies_delete := cookies_delete svc;
     next_revalidatePath := f;
     encryptId := encryptId svc;
     extractCustomerIdFromUrl := extractCustomerIdFromUrl svc |}.

Definition alice_document : Document :=
  {| dollar_id := "doc_alice";
     attributes :=
       [ ("email", JStr "alice@example.com");
         ("firstName", JStr "Alice");
         ("lastName", JStr "Doe");
         ("userId", JStr "user_1");
         ("dwollaCustomerId", JStr "cust_1");
         ("dwollaCustomerUrl", JStr "https://api.dwolla.com/customers/cust_1") ] |}.

(** A second document for the same account, written later. *)
Definition alice_duplicate : Document :=
  {| dollar_id := "doc_alice_2";
     attributes := [ ("email", JStr "alice@example.org"); ("userId", JStr "user_1") ] |}.

Definition registered : World :=
  {| users := [alice_document]; banks := []; trace := [] |}.

Definition linked : World :=
  {| users := [alice_document]; banks := [Scenario.link_a1]; trace := [] |}.

Definition customer_url : string := "https://api.dwolla.com/customers/cust_2".

(** Dwolla as in the scenario, and accepting new customers. *)
Definition onboarding : Services :=
  with_dwollaClient_post
    (fun w path payload =>
       if String.eqb path "customers"
       then Ok {| headers_location := Some customer_url; body := JUndefined |}
       else Scenario.dwolla true true w path payload)
    Scenario.healthy.

Definition bob : SignUpParams.t :=
  {| SignUpParams.password := "hunter22";
     SignUpParams.email := "bob@example.com";
     SignUpParams.firstName := "Bob";
     SignUpParams.lastName := "Ray";
     SignUpParams.address1 := "1 Main St";
     SignUpParams.city := "Albany";
     SignUpParams.state := "NY";
     SignUpParams.postalCode := "12207";
     SignUpParams.dateOfBirth := "1990-01-01";
     SignUpParams.ssn := "1234" |}.

Definition a1_props : createBankAccountProps :=
  {| userId := "user_1";
     bankId := "item_1";
     accountId := Some "a1";
     accessToken := "acc_1";
     fundingSourceUrl := Some Scenario.fs1;
     shareableId := Some "id:a1" |}.

End Variation.

Set Implicit Arguments.

(** ** The home page

    [Home] is the server component of the landing page, the caller of
    [getLoggedInUser].  Its other two data sources, [getAccounts] and
    [getAccount] of the bank actions, are not among the sources: they are
    parameters here, arbitrary actions that may change the world and may
    throw.  Numbers stay abstract: [Number_] stands for JavaScript's
    [Number(..)], [number_falsy] for the test that [||] makes on its result
    ([0] and [NaN]), [one] for the literal [1].  The element that [Home]
    returns is kept as the props it hands to each component. *)

Module SearchParamProps.
Record t : Type := {
  id : option string;
  page : option string
}.
End SearchParamProps.

(** Truthiness of a value. *)
Definition json_truthy (j : json) : bool :=
  match j with
  | JUndefined | JNull => false
  | JStr s => negb (String.eqb s "")
  | JObj _ => true
  end.

(** [j?.k]: a property read that yields [undefined] instead of throwing. *)
Definition optional_property (j : json) (k : string) : json :=
  match j with
  | JObj fields => obj_get k fields
  | _ => JUndefined
  end.

Section HomePage.

Variable number : Type.

(** What [getAccounts] resolves to, as far as [Home] reads it. *)
Record Accounts : Type := {
  data : option (list json);
  totalBanks : number;
  totalCurrentBalance : number
}.

Record HeaderBoxProps : Type := {
  header_type : string;
  header_title : string;
  header_user : json;
  header_subtext : string
}.

Record TotalBalanceBoxProps : Type := {
  total_accounts : list json;
  total_totalBanks : number;
  total_totalCurrentBalance : number
}.

Record RecentTransactionsProps : Type := {
  recent_accounts : list json;
  recent_transactions : json;
  recent_appwriteItemId : json;
  recent_page : number
}.

Record RightSidebarProps : Type := {
  sidebar_user : Document;
  sidebar_transactions : json;
  sidebar_banks : list json
}.

Inductive View : Type :=
| Message (text : string)
| Dashboard (header : HeaderBoxProps) (total : TotalBalanceBoxProps)
            (recent : RecentTransactionsProps) (sidebar : RightSidebarProps).

Variable svc : Services.
Variable Number_ : option string -> number.
Variable number_falsy : number -> bool.
Variable one : number.
Variable getAccounts : string -> M (option Accounts).
Variable getAccount : json -> M json.

Definition please_sign_in : string :=
  "Please sign in to view your account information.".

Definition no_account_information : string :=
  "No account information available for your user.".

Definition Home (searchParams : SearchParamProps.t) : M View :=
  let currentPage :=
    if number_falsy (Number_ (SearchParamProps.page searchParams))
    then one
    else Number_ (SearchParamProps.page searchParams) in
  loggedIn <- getLoggedInUser svc ;;
  match loggedIn with
  | None => ret (Message please_sign_in)
  | Some loggedIn_ =>
      let userId_ := dollar_id loggedIn_ in
      accounts <- getAccounts userId_ ;;
      match accounts with
      | None => ret (Message no_account_information)
      | Some accounts_ =>
          match data accounts_ with
          | None => ret (Message no_account_information)
          | Some [] => ret (Message no_account_information)
          | Some ((first_account :: _) as accountsData) =>
              let appwriteItemId :=
                if truthy (SearchParamProps.id searchParams)
                then jstr (SearchParamProps.id searchParams)
                else optional_property first_account "appwriteItemId" in
              account <- getAccount appwriteItemId ;;
              ret (Dashboard
                     {| header_type := "greeting";
                        header_title := "Welcome";
                        header_user :=
                          if json_truthy (obj_get "firstName" (attributes loggedIn_))
                          then obj_get "firstName" (attributes loggedIn_)
                          else JStr "Guest";
                        header_subtext :=
                          "Access and manage your account and transactions efficiently." |}
                     {| total_accounts := accountsData;
                        total_totalBanks := totalBanks accounts_;
                        total_totalCurrentBalance := totalCurrentBalance accounts_ |}
                     {| recent_accounts := accountsData;
                        recent_transactions := optional_property account "transactions";
                        recent_appwriteItemId := appwriteItemId;
                        recent_page := currentPage |}
                     {| sidebar_user := loggedIn_;
                        sidebar_transactions := optional_property account "transactions";
                        sidebar_banks := firstn 2 accountsData |})
          end
      end
  end.

End HomePage.

Arguments Message {number} text.

Unset Implicit Arguments.

Module HomeScenario.

Definition checking_account : json :=
  JObj [ ("appwriteItemId", JStr "doc_0"); ("name", JStr "Checking") ].

Definition savings_account : json :=
  JObj [ ("appwriteItemId", JStr "doc_1"); ("name", JStr "Savings") ].

Definition card_account : json :=
  JObj [ ("appwriteItemId", JStr "doc_2"); ("name", JStr "Card") ].

Definition three_accounts : Accounts nat :=
  {| data := Some [checking_account; savings_account; card_account];
     totalBanks := 3;
     totalCurrentBalance := 1250 |}.

(** A stand-in for [Number(..)] on the page parameter: an unsigned
    decimal numeral is read as its value; the absent parameter and every
    other string count as [NaN], which [||] treats like [0]. *)
Definition Number_ (s : option string) : nat :=
  match s with
  | Some digits =>
      match NilEmpty.uint_of_string digits with
      | Some n => Nat.of_uint n
      | None => 0
      end
  | None => 0
  end.

Definition home (getAccounts : string -> M (option (Accounts nat)))
    (getAccount : json -> M json) : SearchParamProps.t -> M (View nat) :=
  Home Scenario.healthy Number_ (Nat.eqb 0) 1 getAccounts getAccount.

Definition statement : json :=
  JObj [ ("transactions", JStr "t1,t2") ].

End HomeScenario.


Ltac run :=
  cbn [bind ret raise catch Monad_M MonadExc_M negb
       users banks trace record_event insert_document store].

Ltac unfold_link :=
  unfold exchangePublicToken, or_null, exchangePublicToken_body, revalidatePath,
    await, console_error, emit, after_processor_token, after_accounts,
    after_exchange, processor_request, funding_request, util in *.

Ltac unfold_query :=
  unfold or_null, admin_client, database_listDocuments, await, console_error,
    console_warn, emit, store_answers, selected, parseStringify.

(** ** The Dwolla actions *)

Section DwollaFacts.

Variable svc : Services.

Lemma or_undefined_truthy (s : option string) :
  truthy (or_undefined s) = truthy s.
Proof.
  unfold or_undefined. destruct (truthy s) eqn:E; [exact E | reflexivity].
Qed.

Lemma or_undefined_some (s : option string) (url : string) :
  or_undefined s = Some url -> s = Some url /\ url <> "".
Proof.
  unfold or_undefined. destruct (truthy s) eqn:E; [| discriminate].
  intros ->. split; [reflexivity |].
  intros ->. discriminate E.
Qed.

Lemma post_cases (path : string) (payload : option json) (w : World) :
  (exists res, dwollaClient_post svc w path payload = Ok res /\
     post svc path payload w =
     (Return res, record_event (DwollaPost path payload (Ok res)) w)) \/
  (exists d, dwollaClient_post svc w path payload = Fails d /\
     post svc path payload w =
     (Throw (Rejected d), record_event (DwollaPost path payload (Fails d)) w)).
Proof.
  unfold post, await.
  destruct (dwollaClient_post svc w path payload) as [res | d];
    [left; exists res | right; exists d]; split; reflexivity.
Qed.

(** The authorization step asks Dwolla once, never throws and leaves the
    ledger alone. *)
Lemma createOnDemandAuthorization_effect (w : World) :
  exists (links : json) (w' : World) (r : reply Response) (logged : list event),
    createOnDemandAuthorization svc w = (Return links, w') /\
    users w' = users w /\ banks w' = banks w /\
    trace w' = logged ++ DwollaPost "on-demand-authorizations" None r :: trace w /\
    existsb provisions logged = false /\ existsb persists logged = false.
Proof.
  unfold createOnDemandAuthorization, createOnDemandAuthorization_body, console_error, emit.
  run.
  destruct (post_cases "on-demand-authorizations" None w)
    as [(res & Hr & ->) | (d & Hr & ->)]; run.
  - destruct (body res) as [ | | s | fields]; cbn [get_property]; run.
    + eexists _, _, (Ok res), [_]; repeat split; reflexivity.
    + eexists _, _, (Ok res), [_]; repeat split; reflexivity.
    + eexists _, _, (Ok res), []; repeat split; reflexivity.
    + eexists _, _, (Ok res), []; repeat split; reflexivity.
  - eexists _, _, (Fails d), [_]; repeat split; reflexivity.
Qed.

(** The creation step asks Dwolla once, with a body of two keys. *)
Lemma createFundingSource_effect (options : CreateFundingSourceOptions) (w : World) :
  exists (url : option string) (w' : World) (r : reply Response) (logged : list event),
    createFundingSource svc options w = (Return url, w') /\
    users w' = users w /\ banks w' = banks w /\
    trace w' =
      logged ++
      DwollaPost ("customers/" ++ customerId options ++ "/funding-sources")
                 (Some (JObj [ ("name", JStr (fundingSourceName options));
                               ("plaidToken", JStr (plaidToken options)) ])) r
      :: trace w /\
    existsb provisions logged = false /\ existsb persists logged = false /\
    (url = None \/ exists res, r = Ok res /\ url = headers_location res).
Proof.
  unfold createFundingSource, createFundingSource_body, console_error, emit.
  run.
  destruct (post_cases ("customers/" ++ customerId options ++ "/funding-sources")
                       (Some (funding_source_json options)) w)
    as [(res & Hr & ->) | (d & Hr & ->)]; run.
  - eexists _, _, (Ok res), []; repeat split; try reflexivity.
    unfold or_undefined. destruct (truthy (headers_location res));
      [right; exists res; split; reflexivity | left; reflexivity].
  - eexists _, _, (Fails d), [_]; repeat split; try reflexivity.
    left; reflexivity.
Qed.

(** [addFundingSource] never throws, never touches the ledger, and asks
    Dwolla twice: for the authorization, then for the funding source. *)
Lemma addFundingSource_effect (p : AddFundingSourceParams) (w : World) :
  exists (url : option string) (w' : World) (new : list event),
    addFundingSource svc p w = (Return url, w') /\
    users w' = users w /\ banks w' = banks w /\
    trace w' = new ++ trace w /\
    existsb persists new = false /\
    (url = None \/ truthy url = true).
Proof.
  unfold addFundingSource, addFundingSource_body. run.
  destruct (createOnDemandAuthorization_effect w)
    as (links & w1 & r1 & l1 & -> & Hu1 & Hb1 & Ht1 & _ & Hp1).
  destruct (createFundingSource_effect
              {| customerId := dwollaCustomerId p;
                 fundingSourceName := bankName p;
                 plaidToken := processorToken p;
                 _links := links |} w1)
    as (url & w2 & r2 & l2 & E2 & Hu2 & Hb2 & Ht2 & _ & Hp2 & _).
  cbn [customerId fundingSourceName plaidToken] in Ht2.
  rewrite E2.
  set (e1 := DwollaPost _ _ r1) in Ht1.
  set (e2 := DwollaPost _ _ r2) in Ht2.
  exists url, w2, (l2 ++ e2 :: l1 ++ [e1]).
  split; [reflexivity |].
  split; [congruence |]. split; [congruence |].
  split.
  - rewrite Ht2, Ht1. rewrite <- !app_assoc. cbn [app]. rewrite <- app_assoc.
    reflexivity.
  - split.
    + rewrite existsb_app. cbn [existsb]. rewrite existsb_app, Hp1, Hp2.
      reflexivity.
    + revert E2. unfold createFundingSource, createFundingSource_body. run.
      destruct (post svc _ _ w1) as [[res | e] w1']; run.
      * intros [= <- _]. rewrite or_undefined_truthy.
        unfold or_undefined.
        destruct (truthy (headers_location res)); [right | left]; reflexivity.
      * unfold console_error, emit. intros [= <- _]. left; reflexivity.
Qed.

(** The two requests of [addFundingSource] go out in a fixed order: the
    authorization first, the creation second; whatever else is recorded in
    between is console output. *)
Lemma addFundingSource_order (p : AddFundingSourceParams) (w : World) :
  exists (url : option string) (w' : World) (r1 r2 : reply Response)
         (l1 l2 : list event),
    addFundingSource svc p w = (Return url, w') /\
    trace w' =
      l2 ++
      DwollaPost ("customers/" ++ dwollaCustomerId p ++ "/funding-sources")
                 (Some (JObj [ ("name", JStr (bankName p));
                               ("plaidToken", JStr (processorToken p)) ])) r2
      :: l1 ++ DwollaPost "on-demand-authorizations" None r1 :: trace w /\
    existsb provisions l1 = false /\ existsb provisions l2 = false /\
    (url = None \/ exists res, r2 = Ok res /\ url = headers_location res).
Proof.
  unfold addFundingSource, addFundingSource_body. run.
  destruct (createOnDemandAuthorization_effect w)
    as (links & w1 & r1 & l1 & -> & _ & _ & Ht1 & Hq1 & _).
  destruct (createFundingSource_effect
              {| customerId := dwollaCustomerId p;
                 fundingSourceName := bankName p;
                 plaidToken := processorToken p;
                 _links := links |} w1)
    as (url & w2 & r2 & l2 & -> & _ & _ & Ht2 & Hq2 & _ & Hurl).
  cbn [customerId fundingSourceName plaidToken] in Ht2.
  exists url, w2, r1, r2, l1, l2.
  split; [reflexivity |]. split; [| auto].
  rewrite Ht2, Ht1. reflexivity.
Qed.

(** A failed creation fails the whole provisioning step. *)
Lemma addFundingSource_creation_fails (p : AddFundingSourceParams) (w : World) :
  exists (w1 : World),
    (exists links, createOnDemandAuthorization svc w = (Return links, w1)) /\
    forall d,
      dwollaClient_post svc w1
        ("customers/" ++ dwollaCustomerId p ++ "/funding-sources")
        (Some (JObj [ ("name", JStr (bankName p));
                      ("plaidToken", JStr (processorToken p)) ])) = Fails d ->
      fst (addFundingSource svc p w) = Return None.
Proof.
  destruct (createOnDemandAuthorization_effect w)
    as (links & w1 & r1 & l1 & E1 & _).
  exists w1. split; [exists links; exact E1 |].
  intros d Hd.
  unfold addFundingSource, addFundingSource_body. run. rewrite E1.
  unfold createFundingSource, createFundingSource_body, post, await,
    funding_source_json.
  cbn [customerId fundingSourceName plaidToken]. run.
  rewrite Hd. reflexivity.
Qed.

(** A failure of the authorization step is not reported: when Dwolla
    rejects the authorization and then accepts the creation,
    [addFundingSource] returns the location of the new funding source; and
    the creation request is the same two-key body as ever. *)
Lemma authorization_failure_is_not_reported (p : AddFundingSourceParams)
    (w : World) (d url : string) (res : Response) :
  let w1 :=
    record_event
      (ConsoleError "Creating an On Demand Authorization Failed: " (Rejected d))
      (record_event (DwollaPost "on-demand-authorizations" None (Fails d)) w) in
  let path := ("customers/" ++ dwollaCustomerId p ++ "/funding-sources")%string in
  let payload := Some (JObj [ ("name", JStr (bankName p));
                              ("plaidToken", JStr (processorToken p)) ]) in
  dwollaClient_post svc w "on-demand-authorizations" None = Fails d ->
  dwollaClient_post svc w1 path payload = Ok res ->
  headers_location res = Some url -> url <> "" ->
  addFundingSource svc p w =
  (Return (Some url), record_event (DwollaPost path payload (Ok res)) w1).
Proof.
  intros w1 path payload H1 H2 Hloc Hne.
  unfold addFundingSource, addFundingSource_body, createOnDemandAuthorization,
    createOnDemandAuthorization_body, createFundingSource,
    createFundingSource_body, funding_source_json, post, await, console_error,
    emit.
  cbn [customerId fundingSourceName plaidToken]. run.
  rewrite H1. run. fold w1. fold path. fold payload. rewrite H2. run.
  rewrite Hloc. unfold or_undefined, truthy.
  destruct (String.eqb_spec url ""); [contradiction | reflexivity].
Qed.

End DwollaFacts.

(** C7. For every pair of funding-source references and every amount,
    [createTransfer] sends exactly one request, to [transfers], whose body
    has the two references as its source and destination links and the
    amount under the fixed currency code USD; when Dwolla accepts it the
    action returns the reference of the new transfer, which is the
    [location] header of the response ([undefined] when the response has no
    such header or an empty one), and when Dwolla rejects it the action logs
    the error and returns [undefined]. *)
Theorem createTransfer_request_and_result
    (svc : Services) (p : TransferParams) (w : World) :
  exists payload : json,
    json_at ["_links"; "source"; "href"] payload = JStr (sourceFundingSourceUrl p) /\
    json_at ["_links"; "destination"; "href"] payload =
      JStr (destinationFundingSourceUrl p) /\
    json_at ["amount"; "currency"] payload = JStr "USD" /\
    json_at ["amount"; "value"] payload = JStr (amount p) /\
    match dwollaClient_post svc w "transfers" (Some payload) with
    | Ok res =>
        createTransfer svc p w =
        (Return (match headers_location res with
                 | Some location => if String.eqb location "" then None else Some location
                 | None => None
                 end),
         record_event (DwollaPost "transfers" (Some payload) (Ok res)) w)
    | Fails d =>
        createTransfer svc p w =
        (Return None,
         record_event (ConsoleError "Transfer fund failed: " (Rejected d))
           (record_event (DwollaPost "transfers" (Some payload) (Fails d)) w))
    end.
Proof.
  exists (transfer_json p).
  repeat (split; [reflexivity |]).
  unfold createTransfer, createTransfer_body, post, await, console_error, emit.
  run.
  destruct (dwollaClient_post svc w "transfers" (Some (transfer_json p)))
    as [res | d]; [| reflexivity].
  unfold or_undefined, truthy.
  destruct (headers_location res) as [location |]; [| reflexivity].
  destruct (String.eqb location ""); reflexivity.
Qed.

(** C3 (the code departs from it). With the authorization endpoint down,
    [addFundingSource] still creates the funding source and returns its
    location; and with the endpoint up, the creation request that follows
    carries the name and the processor token only, not the authorization
    that was just obtained. *)
Theorem addFundingSource_ignores_authorization :
  let p := {| dwollaCustomerId := "cust_1";
              processorToken := "proc_1";
              bankName := "Checking" |} in
  let creation :=
    DwollaPost "customers/cust_1/funding-sources"
      (Some (JObj [ ("name", JStr "Checking"); ("plaidToken", JStr "proc_1") ]))
      (Ok {| headers_location := Some Scenario.fs1; body := JUndefined |}) in
  addFundingSource
    (Scenario.services [Scenario.checking] false true true
       (fun id => Ok (Scenario.encode id)))
    p Scenario.genesis =
  (Return (Some Scenario.fs1),
   {| users := []; banks := [];
      trace :=
        [ creation;
          ConsoleError "Creating an On Demand Authorization Failed: "
            (Rejected "503 Service Unavailable");
          DwollaPost "on-demand-authorizations" None
            (Fails "503 Service Unavailable") ] |}) /\
  addFundingSource Scenario.healthy p Scenario.genesis =
  (Return (Some Scenario.fs1),
   {| users := []; banks := [];
      trace :=
        [ creation;
          DwollaPost "on-demand-authorizations" None
            (Ok {| headers_location := None;
                   body := Scenario.authorization |}) ] |}) /\
  has_key "_links"
    (JObj [ ("name", JStr "Checking"); ("plaidToken", JStr "proc_1") ]) = false.
Proof.
  repeat split; vm_compute; reflexivity.
Qed.

(** ** The linking workflow *)

Section LinkingFacts.

Variable svc : Services.

(** [createBankAccount] never throws: it appends one document with the
    given fields, or logs an error, returns [null] and writes nothing. *)
Lemma createBankAccount_effect (p : createBankAccountProps) (w : World) :
  exists (v : option Document) (w' : World) (new : list event),
    createBankAccount svc p w = (Return v, w') /\
    users w' = users w /\ trace w' = new ++ trace w /\
    ((v = None /\ banks w' = banks w /\
      exists e, In (ConsoleError "[createBankAccount] Error:" e) new) \/
     (exists doc, v = Some doc /\ banks w' = banks w ++ [doc] /\
        attributes doc = bank_account_data p /\
        In (CreateDocument BANK_COLLECTION_ID (bank_account_data p) (Ok doc)) new)).
Proof.
  unfold createBankAccount, or_null, createBankAccount_body, admin_client,
    ID_unique_, database_createDocument, await, console_error, emit.
  run.
  destruct (createAdminClient svc w) as [[] | d]; run.
  - destruct (createDocument_fault svc _ _ _) as [[] | d]; run.
    + eexists _, _, [_; _]. repeat split.
      right. eexists. repeat split. left. reflexivity.
    + eexists _, _, [_; _; _]. repeat split.
      left. repeat split. eexists. left. reflexivity.
  - eexists _, _, [_; _]. repeat split.
    left. repeat split. eexists. left. reflexivity.
Qed.

(** C8. Whenever the token exchange is rejected (as Plaid does for a public
    token that was already consumed), [exchangePublicToken] returns [null];
    nothing runs after the exchange: the only new events are the rejected
    call and the handler's log line, and both collections are as before, so
    no BankLink is created. *)
Theorem exchange_failure_aborts (publicToken : string) (user : User) (w : World) (d : string) :
  itemPublicTokenExchange svc w publicToken = Fails d ->
  exists w',
    exchangePublicToken svc publicToken user w = (Return None, w') /\
    users w' = users w /\ banks w' = banks w /\
    trace w' =
      [ ConsoleError "[exchangePublicToken] Error:" (Rejected d);
        ItemPublicTokenExchange publicToken (Fails d) ] ++ trace w.
Proof.
  intros H.
  unfold exchangePublicToken, or_null, exchangePublicToken_body, await,
    console_error, emit.
  run. rewrite H. run.
  eexists. repeat split.
Qed.

(** C4. Whenever the account retrieval answers with an empty list, or with
    a first entry whose account id is missing or empty,
    [exchangePublicToken] returns [null]; the only new events are the two
    Plaid calls and the handler's log line, so no request went to Dwolla (no
    funding source is provisioned) and nothing was written to the store (no
    BankLink is created). *)
Theorem no_account_aborts (publicToken : string) (user : User) (w : World)
    (tokens : string * string) (accounts : list AccountBase) :
  itemPublicTokenExchange svc w publicToken = Ok tokens ->
  accountsGet svc (record_event (ItemPublicTokenExchange publicToken (Ok tokens)) w)
              (fst tokens) = Ok accounts ->
  (accounts = [] \/
   exists first rest, accounts = first :: rest /\ truthy (account_id first) = false) ->
  exists w',
    exchangePublicToken svc publicToken user w = (Return None, w') /\
    users w' = users w /\ banks w' = banks w /\
    trace w' =
      [ ConsoleError "[exchangePublicToken] Error:"
          (Error "Invalid account data received from Plaid.");
        AccountsGet (fst tokens) (Ok accounts);
        ItemPublicTokenExchange publicToken (Ok tokens) ] ++ trace w.
Proof.
  intros H1 H2 H3.
  unfold exchangePublicToken, or_null, exchangePublicToken_body, await,
    console_error, emit.
  run. rewrite H1. run. rewrite H2. run.
  destruct H3 as [-> | (first & rest & -> & Hid)].
  - run. eexists. repeat split.
  - rewrite Hid. run. eexists. repeat split.
Qed.

(** C6. Whenever the first three steps go through and [addFundingSource]
    comes back without a funding-source reference (which covers a creation
    that fails after the authorization was obtained), [exchangePublicToken]
    throws "Error creating funding source" right after it, returns [null],
    and the persistence step is never attempted: no event of the call is a
    write to the bank collection, and the collection is unchanged. *)
Theorem funding_source_failure_aborts (publicToken : string) (user : User)
    (w : World) (tokens : string * string) (first : AccountBase)
    (rest : list AccountBase) (pt : string) (w4 : World) :
  itemPublicTokenExchange svc w publicToken = Ok tokens ->
  accountsGet svc (after_exchange publicToken tokens w) (fst tokens) =
    Ok (first :: rest) ->
  truthy (account_id first) = true ->
  processorTokenCreate svc (after_accounts publicToken tokens (first :: rest) w)
                       (processor_request tokens first) = Ok pt ->
  addFundingSource svc (funding_request user first pt)
    (after_processor_token publicToken tokens (first :: rest) first pt w) =
    (Return None, w4) ->
  exists w' new,
    exchangePublicToken svc publicToken user w = (Return None, w') /\
    trace w' =
      ConsoleError "[exchangePublicToken] Error:"
        (Error "Error creating funding source") :: trace w4 /\
    users w' = users w /\ banks w' = banks w /\
    trace w' = new ++ trace w /\ existsb persists new = false.
Proof.
  intros H1 H2 H3 H4 H5.
  destruct (addFundingSource_effect svc (funding_request user first pt)
              (after_processor_token publicToken tokens (first :: rest) first pt w))
    as (url & w4' & new & E & Hu & Hb & Ht & Hp & _).
  rewrite H5 in E. injection E as <- <-.
  unfold_link.
  run. rewrite H1. run. rewrite H2. run. rewrite H3. run. rewrite H4. run.
  rewrite H5. run.
  eexists _, (_ :: new ++ [_; _; _]).
  split; [reflexivity |]. split; [reflexivity |].
  split; [exact Hu |]. split; [exact Hb |].
  split.
  - cbn [trace record_event]. rewrite Ht. cbn [app trace record_event].
    rewrite <- app_assoc. reflexivity.
  - cbn [existsb persists orb]. rewrite existsb_app, Hp. reflexivity.
Qed.

Lemma truthy_some (s : string) : truthy (Some s) = true -> s <> "".
Proof. intros H ->. discriminate H. Qed.

(** What a successful linking call has done: the exchange gave the tokens,
    the first account had a non-empty id, Dwolla answered the creation
    request with the location [url], the id was encoded to a non-empty
    shareable id, and then either one document with the six BankLink fields
    was appended to the bank collection, or [createBankAccount] failed,
    logged the error, and left the collection as it was. *)
Lemma exchangePublicToken_success_inv (publicToken : string) (user : User)
    (w w' : World) (x : PublicTokenExchange) :
  exchangePublicToken svc publicToken user w = (Return (Some x), w') ->
  x = complete /\ users w' = users w /\
  exists (tokens : string * string) (first : AccountBase) (rest : list AccountBase)
         (id pt url shareable : string) (res : Response),
    In (ItemPublicTokenExchange publicToken (Ok tokens)) (trace w') /\
    In (AccountsGet (fst tokens) (Ok (first :: rest))) (trace w') /\
    account_id first = Some id /\ id <> "" /\
    In (ProcessorTokenCreate (processor_request tokens first) (Ok pt)) (trace w') /\
    In (DwollaPost ("customers/" ++ user_dwollaCustomerId user ++ "/funding-sources")
          (Some (JObj [ ("name", JStr (name first)); ("plaidToken", JStr pt) ]))
          (Ok res)) (trace w') /\
    headers_location res = Some url /\
    encryptId svc id = Ok shareable /\ shareable <> "" /\
    ((exists doc,
        banks w' = banks w ++ [doc] /\
        attributes doc = bank_link_data user tokens id url shareable) \/
     (banks w' = banks w /\
      exists e, In (ConsoleError "[createBankAccount] Error:" e) (trace w'))).
Proof.
  unfold_link. run.
  destruct (itemPublicTokenExchange svc w publicToken) as [tokens | d] eqn:E1;
    run; [| discriminate].
  destruct (accountsGet svc _ (fst tokens)) as [accounts | d] eqn:E2;
    run; [| discriminate].
  destruct accounts as [| first rest]; run; [discriminate |].
  destruct (truthy (account_id first)) eqn:E3; run; [| discriminate].
  destruct (processorTokenCreate svc _ _) as [pt | d] eqn:E4;
    run; [| discriminate].
  match goal with
  | |- context [addFundingSource svc ?p ?w3] =>
      destruct (addFundingSource_effect svc p w3)
        as (url & w4 & new & E5 & Hu & Hb & Ht & Hp & Hurl);
      destruct (addFundingSource_order svc p w3)
        as (url' & w4' & r1 & r2 & l1 & l2 & E5' & Ht' & _ & _ & Hloc);
      rewrite E5 in E5'; injection E5' as <- <-; rewrite E5
  end.
  cbn [dwollaCustomerId bankName processorToken] in Ht'.
  run.
  destruct (truthy url) eqn:E6; run; [| discriminate].
  destruct url as [url |]; [| discriminate E6].
  destruct Hloc as [Hloc | (res & -> & Hloc)]; [discriminate Hloc |].
  destruct (account_id first) as [id |] eqn:E7; [| discriminate E3].
  rewrite E3.
  destruct (encryptId svc id) as [s | d] eqn:E8; run; [| discriminate].
  destruct (truthy (Some s)) eqn:E9; run; [| discriminate].
  match goal with
  | |- context [createBankAccount svc ?p ?w5] =>
      destruct (createBankAccount_effect p w5)
        as (v & w6 & new6 & E10 & Hu6 & Ht6 & Hcases); rewrite E10
  end.
  run.
  destruct (next_revalidatePath svc w6 "/") as [[] | d] eqn:E11;
    run; [| discriminate].
  intros [= <- <-]. run.
  split; [reflexivity |].
  split; [rewrite Hu6, Hu; reflexivity |].
  exists tokens, first, rest, id, pt, url, s, res.
  assert (Hold : forall ev, In ev (trace w4) -> In ev (RevalidatePath "/" (Ok tt) :: trace w6)).
  { intros ev Hev. right. rewrite Ht6. apply in_or_app. right. exact Hev. }
  split.
  { apply Hold. rewrite Ht. apply in_or_app. right. right. right. left. reflexivity. }
  split.
  { apply Hold. rewrite Ht. apply in_or_app. right. right. left. reflexivity. }
  split; [exact E7 |].
  split; [apply truthy_some; exact E3 |].
  split.
  { apply Hold. rewrite Ht. apply in_or_app. right. left. rewrite E7. reflexivity. }
  split.
  { apply Hold. rewrite Ht'. apply in_or_app. right. left. reflexivity. }
  split; [symmetry; exact Hloc |].
  split; [exact E8 |].
  split; [apply truthy_some; exact E9 |].
  destruct Hcases as [(-> & Hb6 & e & He) | (doc & -> & Hb6 & Hattr & Hin)].
  - right. split; [rewrite Hb6, Hb; reflexivity |].
    exists e. right. rewrite Ht6. apply in_or_app. left. exact He.
  - left. exists doc. split; [rewrite Hb6, Hb; reflexivity | exact Hattr].
Qed.

Lemma truthy_nonempty (s : string) : s <> "" -> truthy (Some s) = true.
Proof.
  intros H. unfold truthy. destruct (String.eqb_spec s ""); [contradiction | reflexivity].
Qed.

(** A failure of the persistence step is not reported: when every step
    before it goes through and the store then refuses the admin client,
    [exchangePublicToken] still revalidates the path and returns the
    completion marker, with the bank collection as it was. *)
Lemma persistence_failure_is_not_reported (publicToken : string) (user : User)
    (w : World) (tokens : string * string) (first : AccountBase)
    (rest : list AccountBase) (id pt url shareable d : string) (w4 : World) :
  itemPublicTokenExchange svc w publicToken = Ok tokens ->
  accountsGet svc (after_exchange publicToken tokens w) (fst tokens) =
    Ok (first :: rest) ->
  account_id first = Some id -> id <> "" ->
  processorTokenCreate svc (after_accounts publicToken tokens (first :: rest) w)
                       (processor_request tokens first) = Ok pt ->
  addFundingSource svc (funding_request user first pt)
    (after_processor_token publicToken tokens (first :: rest) first pt w) =
    (Return (Some url), w4) ->
  encryptId svc id = Ok shareable -> shareable <> "" ->
  createAdminClient svc w4 = Fails d ->
  next_revalidatePath svc
    (record_event (ConsoleError "[createBankAccount] Error:" (Rejected d))
       (record_event (CreateAdminClient (Fails d)) w4)) "/" = Ok tt ->
  exists w',
    exchangePublicToken svc publicToken user w = (Return (Some complete), w') /\
    banks w' = banks w /\
    trace w' =
      [ RevalidatePath "/" (Ok tt);
        ConsoleError "[createBankAccount] Error:" (Rejected d);
        CreateAdminClient (Fails d) ] ++ trace w4.
Proof.
  intros H1 H2 Hid Hne H3 H4 H5 Hs H6 H7.
  destruct (addFundingSource_effect svc (funding_request user first pt)
              (after_processor_token publicToken tokens (first :: rest) first pt w))
    as (url' & w4' & new & E & Hu & Hb & Ht & Hp & Hurl).
  rewrite H4 in E. injection E as <- <-.
  destruct Hurl as [Hurl | Hurl]; [discriminate Hurl |].
  unfold_link. unfold createBankAccount, createBankAccount_body, admin_client,
    or_null, await, console_error, emit.
  run. rewrite H1. run. rewrite H2. run. rewrite Hid in *.
  rewrite (truthy_nonempty id Hne). run. rewrite H3. run. rewrite H4. run.
  rewrite Hurl. run. rewrite H5. run. rewrite (truthy_nonempty shareable Hs). run.
  rewrite H6. run. rewrite H7. run.
  eexists. split; [reflexivity |]. split; [exact Hb | reflexivity].
Qed.

Lemma truthy_some_false (s : string) : truthy (Some s) = false -> s = "".
Proof.
  unfold truthy. destruct (String.eqb_spec s ""); [auto | discriminate].
Qed.

(** When the write commits, a successful linking call has added exactly one
    BankLink.  Its fields are those of the record layout: the user's id, the
    item id and the access token of the exchange, the id of the first
    account, the location of the new funding source and the shareable id;
    and the shareable id decodes to the account id, [decryptId] being any
    inverse of the encoding. *)
Lemma link_writes_one_bank_link (decryptId : string -> string) :
  (forall id s, encryptId svc id = Ok s -> decryptId s = id) ->
  forall (publicToken : string) (user : User) (w w' : World)
         (x : PublicTokenExchange),
    exchangePublicToken svc publicToken user w = (Return (Some x), w') ->
    banks w' <> banks w ->
    exists (doc : Document) (tokens : string * string) (first : AccountBase)
           (rest : list AccountBase) (id pt url shareable : string)
           (res : Response),
      banks w' = banks w ++ [doc] /\
      attributes doc =
        [ ("userId", JStr (user_id user));
          ("bankId", JStr (snd tokens));
          ("accountId", JStr id);
          ("accessToken", JStr (fst tokens));
          ("fundingSourceUrl", JStr url);
          ("shareableId", JStr shareable) ] /\
      In (ItemPublicTokenExchange publicToken (Ok tokens)) (trace w') /\
      In (AccountsGet (fst tokens) (Ok (first :: rest))) (trace w') /\
      account_id first = Some id /\
      In (DwollaPost ("customers/" ++ user_dwollaCustomerId user ++ "/funding-sources")
            (Some (JObj [ ("name", JStr (name first)); ("plaidToken", JStr pt) ]))
            (Ok res)) (trace w') /\
      headers_location res = Some url /\
      decryptId shareable = id.
Proof.
  intros Hround publicToken user w w' x Hrun Hnew.
  destruct (exchangePublicToken_success_inv _ _ _ _ _ Hrun)
    as (_ & _ & tokens & first & rest & id & pt & url & s & res & Hex & Hin & Hid
        & _ & _ & Hfs & Hloc & Henc & _ & Hcases).
  destruct Hcases as [(doc & Hb & Hattr) | (Hb & _)]; [| contradiction].
  exists doc, tokens, first, rest, id, pt, url, s, res.
  repeat split; auto.
Qed.

(** C10. The [null] arm of the shareableId conditional is dead code: the
    body of [exchangePublicToken] behaves the same whatever is put in its
    place, because the account id was checked to be non-empty before.  And
    when the body throws "Failed to generate shareableId", the first account
    had a non-empty id and [encryptId] returned the empty string for it. *)
Theorem shareableId_null_branch_unreachable (publicToken : string) (user : User) :
  (forall (otherwise : M (option string)) (w : World),
     exchangePublicToken_body svc publicToken user w =
     exchangePublicToken_body_with svc otherwise publicToken user w) /\
  (forall (w w' : World),
     exchangePublicToken_body svc publicToken user w =
       (Throw (Error "Failed to generate shareableId"), w') ->
     exists (tokens : string * string) (first : AccountBase)
            (rest : list AccountBase) (id : string),
       In (AccountsGet (fst tokens) (Ok (first :: rest))) (trace w') /\
       account_id first = Some id /\ id <> "" /\
       encryptId svc id = Ok "").
Proof.
  split.
  - intros otherwise w.
    unfold exchangePublicToken_body_with. unfold_link. run.
    destruct (itemPublicTokenExchange svc w publicToken) as [tokens | d];
      run; [| reflexivity].
    destruct (accountsGet svc _ (fst tokens)) as [accounts | d];
      run; [| reflexivity].
    destruct accounts as [| first rest]; run; [reflexivity |].
    destruct (truthy (account_id first)) eqn:E3; run; [| reflexivity].
    destruct (processorTokenCreate svc _ _) as [pt | d]; run; [| reflexivity].
    destruct (account_id first) as [id |]; [| discriminate E3].
    rewrite E3. reflexivity.
  - intros w w'. unfold_link. run.
    destruct (itemPublicTokenExchange svc w publicToken) as [tokens | d] eqn:E1;
      run; [| discriminate].
    destruct (accountsGet svc _ (fst tokens)) as [accounts | d] eqn:E2;
      run; [| discriminate].
    destruct accounts as [| first rest]; run; [discriminate |].
    destruct (truthy (account_id first)) eqn:E3; run; [| discriminate].
    destruct (processorTokenCreate svc _ _) as [pt | d] eqn:E4;
      run; [| discriminate].
    match goal with
    | |- context [addFundingSource svc ?p ?w3] =>
        destruct (addFundingSource_effect svc p w3)
          as (url & w4 & new & E5 & Hu & Hb & Ht & Hp & Hurl); rewrite E5
    end.
    run.
    destruct (truthy url) eqn:E6; run; [| discriminate].
    destruct (account_id first) as [id |] eqn:E7; [| discriminate E3].
    rewrite E3.
    destruct (encryptId svc id) as [s | d] eqn:E8; run; [| discriminate].
    destruct (truthy (Some s)) eqn:E9; run.
    + match goal with
      | |- context [createBankAccount svc ?p ?w5] =>
          destruct (createBankAccount_effect p w5)
            as (v & w6 & new6 & E10 & _); rewrite E10
      end.
      run.
      destruct (next_revalidatePath svc w6 "/") as [[] | d]; run; discriminate.
    + intros [= <-].
      exists tokens, first, rest, id.
      split.
      { rewrite Ht. apply in_or_app. right. right. left. reflexivity. }
      split; [exact E7 |].
      split; [apply truthy_some; exact E3 |].
      rewrite E8. f_equal. apply truthy_some_false. exact E9.
Qed.

End LinkingFacts.

(** The scenario of the specification, run: one BankLink is written, with
    the fields of the record layout, and its shareable id decodes to the
    account id. *)
Lemma scenario_decode_encode (id : string) :
  Scenario.decode (Scenario.encode id) = id.
Proof. reflexivity. Qed.

Example scenario_persists_link_a1 :
  exists w',
    exchangePublicToken Scenario.healthy "tok_valid" Scenario.alice
      Scenario.genesis = (Return (Some complete), w') /\
    banks w' = [Scenario.link_a1] /\
    obj_get "shareableId" (attributes Scenario.link_a1) =
      JStr (Scenario.encode "a1").
Proof.
  eexists. split; [vm_compute; reflexivity |]. split; reflexivity.
Qed.

Example scenario_link_decodes :
  exists (doc : Document) (shareable : string),
    banks (snd (exchangePublicToken Scenario.healthy "tok_valid" Scenario.alice
                  Scenario.genesis)) = banks Scenario.genesis ++ [doc] /\
    obj_get "shareableId" (attributes doc) = JStr shareable /\
    Scenario.decode shareable = "a1".
Proof.
  assert (Hround : forall id s, encryptId Scenario.healthy id = Ok s ->
                                Scenario.decode s = id).
  { intros id s [= <-]. apply scenario_decode_encode. }
  assert (Hrun : exchangePublicToken Scenario.healthy "tok_valid" Scenario.alice
                   Scenario.genesis =
                 (Return (Some complete),
                  snd (exchangePublicToken Scenario.healthy "tok_valid"
                         Scenario.alice Scenario.genesis))).
  { vm_compute; reflexivity. }
  assert (Hnew : banks (snd (exchangePublicToken Scenario.healthy "tok_valid"
                               Scenario.alice Scenario.genesis))
                 <> banks Scenario.genesis).
  { vm_compute. discriminate. }
  destruct (link_writes_one_bank_link Scenario.healthy Scenario.decode Hround
              _ _ _ _ _ Hrun Hnew)
    as (doc & tokens & first & rest & id & pt & url & s & res & Hb & Hattr & _
        & Hacc & Hid & _ & _ & Hdec).
  exists doc, s. split; [exact Hb |]. split; [rewrite Hattr; reflexivity |].
  rewrite Hdec.
  vm_compute in Hacc.
  repeat (destruct Hacc as [Hacc | Hacc]; [try discriminate Hacc |]);
    [| contradiction].
  injection Hacc as _ <- _. injection Hid as <-. reflexivity.
Qed.

(** The second call with a public token that a first call consumed. *)
Lemma exchange_failure_aborts_witness :
  let w1 := snd (exchangePublicToken Scenario.healthy "tok_valid" Scenario.alice
                   Scenario.genesis) in
  itemPublicTokenExchange Scenario.healthy w1 "tok_valid" =
    Fails "INVALID_PUBLIC_TOKEN" /\
  exists w',
    exchangePublicToken Scenario.healthy "tok_valid" Scenario.alice w1 =
      (Return None, w') /\
    users w' = users w1 /\ banks w' = banks w1 /\
    trace w' =
      [ ConsoleError "[exchangePublicToken] Error:" (Rejected "INVALID_PUBLIC_TOKEN");
        ItemPublicTokenExchange "tok_valid" (Fails "INVALID_PUBLIC_TOKEN") ]
      ++ trace w1.
Proof.
  intro w1. split; [vm_compute; reflexivity |].
  apply (exchange_failure_aborts Scenario.healthy "tok_valid" Scenario.alice w1
           "INVALID_PUBLIC_TOKEN").
  vm_compute; reflexivity.
Defined.

(** An item without accounts. *)
Lemma no_account_aborts_witness :
  let svc := Scenario.services [] true true true
               (fun id => Ok (Scenario.encode id)) in
  let tokens := ("acc_1", "item_1") in
  itemPublicTokenExchange svc Scenario.genesis "tok_valid" = Ok tokens /\
  accountsGet svc (after_exchange "tok_valid" tokens Scenario.genesis) "acc_1" =
    Ok [] /\
  exists w',
    exchangePublicToken svc "tok_valid" Scenario.alice Scenario.genesis =
      (Return None, w') /\
    users w' = [] /\ banks w' = [] /\
    trace w' =
      [ ConsoleError "[exchangePublicToken] Error:"
          (Error "Invalid account data received from Plaid.");
        AccountsGet "acc_1" (Ok []);
        ItemPublicTokenExchange "tok_valid" (Ok tokens) ].
Proof.
  intros svc tokens.
  split; [reflexivity |]. split; [reflexivity |].
  apply (no_account_aborts svc "tok_valid" Scenario.alice Scenario.genesis
           tokens []);
    [reflexivity | reflexivity | left; reflexivity].
Defined.

(** The authorization is obtained and the creation is rejected. *)
Lemma funding_source_failure_aborts_witness :
  let svc := Scenario.services [Scenario.checking] true false true
               (fun id => Ok (Scenario.encode id)) in
  let tokens := ("acc_1", "item_1") in
  let w3 := after_processor_token "tok_valid" tokens [Scenario.checking]
              Scenario.checking "proc_1" Scenario.genesis in
  let w4 := snd (addFundingSource svc
                   (funding_request Scenario.alice Scenario.checking "proc_1") w3) in
  addFundingSource svc (funding_request Scenario.alice Scenario.checking "proc_1") w3 =
    (Return None, w4) /\
  In (DwollaPost "on-demand-authorizations" None
        (Ok {| headers_location := None; body := Scenario.authorization |}))
     (trace w4) /\
  exists w' new,
    exchangePublicToken svc "tok_valid" Scenario.alice Scenario.genesis =
      (Return None, w') /\
    trace w' =
      ConsoleError "[exchangePublicToken] Error:"
        (Error "Error creating funding source") :: trace w4 /\
    users w' = [] /\ banks w' = [] /\
    trace w' = new ++ [] /\ existsb persists new = false.
Proof.
  intros svc tokens w3 w4.
  split; [vm_compute; reflexivity |].
  split; [vm_compute; tauto |].
  apply (funding_source_failure_aborts svc "tok_valid" Scenario.alice
           Scenario.genesis tokens Scenario.checking [] "proc_1" w4);
    vm_compute; reflexivity.
Defined.

(** An encoding that returns the empty string. *)
Lemma shareableId_null_branch_unreachable_witness :
  let svc := Scenario.services [Scenario.checking] true true true
               (fun _ => Ok "") in
  let w' := snd (exchangePublicToken_body svc "tok_valid" Scenario.alice
                   Scenario.genesis) in
  exchangePublicToken_body svc "tok_valid" Scenario.alice Scenario.genesis =
    (Throw (Error "Failed to generate shareableId"), w') /\
  exists (tokens : string * string) (first : AccountBase)
         (rest : list AccountBase) (id : string),
    In (AccountsGet (fst tokens) (Ok (first :: rest))) (trace w') /\
    account_id first = Some id /\ id <> "" /\
    encryptId svc id = Ok "".
Proof.
  intros svc w'.
  split; [vm_compute; reflexivity |].
  apply (proj2 (shareableId_null_branch_unreachable svc "tok_valid" Scenario.alice)
           Scenario.genesis w').
  vm_compute; reflexivity.
Defined.

(** C1 (the code departs from it). With the store down, the linking call
    still returns its completion marker, and no BankLink has been created:
    the bank collection is as it was, and there is no record for the
    selected account. *)
Theorem exchangePublicToken_success_without_bank_link :
  let svc := Scenario.services [Scenario.checking] true true false
               (fun id => Ok (Scenario.encode id)) in
  let run := exchangePublicToken svc "tok_valid" Scenario.alice Scenario.genesis in
  fst run = Return (Some complete) /\
  banks (snd run) = banks Scenario.genesis /\
  bank_links_for "a1" (snd run) = [].
Proof.
  repeat split; vm_compute; reflexivity.
Qed.

(** C2 (the code departs from it). With the store down, [createBankAccount]
    fails and logs its error, and [exchangePublicToken] goes on regardless:
    it revalidates the path and returns the completion marker, although the
    write never committed. *)
Theorem exchangePublicToken_reports_success_without_write :
  let svc := Scenario.services [Scenario.checking] true true false
               (fun id => Ok (Scenario.encode id)) in
  let run := exchangePublicToken svc "tok_valid" Scenario.alice Scenario.genesis in
  fst run = Return (Some complete) /\
  firstn 3 (trace (snd run)) =
    [ RevalidatePath "/" (Ok tt);
      ConsoleError "[createBankAccount] Error:" (Rejected "store unavailable");
      CreateAdminClient (Fails "store unavailable") ] /\
  existsb persists (trace (snd run)) = false /\
  banks (snd run) = [].
Proof.
  repeat split; vm_compute; reflexivity.
Qed.

(** ** The bank queries *)

Section QueryFacts.

Variable svc : Services.

Lemma selected_by_accountId (accountId_ : string) (w : World) :
  selected BANK_COLLECTION_ID (Query_equal "accountId" [accountId_]) w =
  bank_links_for accountId_ w.
Proof.
  unfold selected, bank_links_for, store. apply filter_ext. intros d.
  unfold matches. cbn [String.eqb Ascii.eqb Bool.eqb].
  destruct (obj_get "accountId" (attributes d)); try reflexivity.
  cbn [existsb]. apply orb_false_r.
Qed.

Lemma getUserInfo_value (userId_ : string) (w : World) :
  fst (getUserInfo svc userId_ w) =
  Return (if store_answers svc USER_COLLECTION_ID (Query_equal "userId" [userId_]) w
          then hd_error (selected USER_COLLECTION_ID (Query_equal "userId" [userId_]) w)
          else None).
Proof.
  unfold getUserInfo, getUserInfo_body. unfold_query. run.
  destruct (createAdminClient svc w) as [[] | d]; run; [| reflexivity].
  destruct (listDocuments_fault svc _ _ _) as [[] | d]; run; [| reflexivity].
  cbn [documents].
  destruct (filter _ (users w)); reflexivity.
Qed.

Lemma getBank_value (documentId : string) (w : World) :
  fst (getBank svc documentId w) =
  Return (if store_answers svc BANK_COLLECTION_ID (Query_equal "$id" [documentId]) w
          then hd_error (selected BANK_COLLECTION_ID (Query_equal "$id" [documentId]) w)
          else None).
Proof.
  unfold getBank, getBank_body. unfold_query. run.
  destruct (createAdminClient svc w) as [[] | d]; run; [| reflexivity].
  destruct (listDocuments_fault svc _ _ _) as [[] | d]; run; [| reflexivity].
  cbn [documents].
  destruct (filter _ (banks w)); reflexivity.
Qed.

Lemma getBanks_value (userId_ : string) (w : World) :
  fst (getBanks svc userId_ w) =
  Return (if store_answers svc BANK_COLLECTION_ID (Query_equal "userId" [userId_]) w
          then Some (selected BANK_COLLECTION_ID (Query_equal "userId" [userId_]) w)
          else None).
Proof.
  unfold getBanks, getBanks_body. unfold_query. run.
  destruct (createAdminClient svc w) as [[] | d]; run; [| reflexivity].
  destruct (listDocuments_fault svc _ _ _) as [[] | d]; run; reflexivity.
Qed.

(** The value of [getBankByAccountId], in full: the single BankLink of the
    account when the store answers and there is exactly one, [null] in every
    other case. *)
Lemma getBankByAccountId_value (accountId_ : string) (w : World) :
  fst (getBankByAccountId svc accountId_ w) =
  Return (if store_answers svc BANK_COLLECTION_ID
                (Query_equal "accountId" [accountId_]) w
          then match bank_links_for accountId_ w with
               | [d] => Some d
               | _ => None
               end
          else None).
Proof.
  rewrite <- selected_by_accountId.
  unfold getBankByAccountId, getBankByAccountId_body. unfold_query. run.
  destruct (createAdminClient svc w) as [[] | d]; run; [| reflexivity].
  destruct (listDocuments_fault svc _ _ _) as [[] | d]; run; [| reflexivity].
  cbn [documents total].
  destruct (filter _ (banks w)) as [| d1 [| d2 rest]]; reflexivity.
Qed.

End QueryFacts.

(** C5, as the code has it. Provided the store answers the listing,
    [getBankByAccountId] returns a record if and only if exactly one
    BankLink exists for the account id, and the record it returns is that
    BankLink; with no BankLink or with two or more it returns [null] and
    picks none.  When the store does not answer, it returns [null] whatever
    the ledger holds. *)
Theorem getBankByAccountId_unique_when_store_answers
    (svc : Services) (accountId_ : string) (w : World) :
  (store_answers svc BANK_COLLECTION_ID (Query_equal "accountId" [accountId_]) w = true ->
   ((exists d, fst (getBankByAccountId svc accountId_ w) = Return (Some d)) <->
    length (bank_links_for accountId_ w) = 1) /\
   (forall d, fst (getBankByAccountId svc accountId_ w) = Return (Some d) ->
              bank_links_for accountId_ w = [d]) /\
   (length (bank_links_for accountId_ w) <> 1 ->
    fst (getBankByAccountId svc accountId_ w) = Return None)) /\
  (store_answers svc BANK_COLLECTION_ID (Query_equal "accountId" [accountId_]) w = false ->
   fst (getBankByAccountId svc accountId_ w) = Return None).
Proof.
  rewrite getBankByAccountId_value.
  split; intros ->; [| reflexivity].
  destruct (bank_links_for accountId_ w) as [| d1 [| d2 rest]]; cbn [length].
  - split; [split; [intros (d & H); discriminate H | discriminate] |].
    split; [intros d H; discriminate H | reflexivity].
  - split; [split; [reflexivity | intros _; exists d1; reflexivity] |].
    split; [intros d [= ->]; reflexivity | intros H; contradiction H; reflexivity].
  - split; [split; [intros (d & H); discriminate H | discriminate] |].
    split; [intros d H; discriminate H | reflexivity].
Qed.

(** One BankLink for [a1], asked for with the store up and with the store
    down. *)
Lemma getBankByAccountId_unique_when_store_answers_witness :
  let down := Scenario.services [Scenario.checking] true true false
                (fun id => Ok (Scenario.encode id)) in
  let w := {| users := []; banks := [Scenario.link_a1]; trace := [] |} in
  (store_answers Scenario.healthy BANK_COLLECTION_ID
     (Query_equal "accountId" ["a1"]) w = true /\
   ((exists d, fst (getBankByAccountId Scenario.healthy "a1" w) = Return (Some d)) <->
    length (bank_links_for "a1" w) = 1) /\
   (forall d, fst (getBankByAccountId Scenario.healthy "a1" w) = Return (Some d) ->
              bank_links_for "a1" w = [d]) /\
   (length (bank_links_for "a1" w) <> 1 ->
    fst (getBankByAccountId Scenario.healthy "a1" w) = Return None)) /\
  (store_answers down BANK_COLLECTION_ID (Query_equal "accountId" ["a1"]) w = false /\
   fst (getBankByAccountId down "a1" w) = Return None).
Proof.
  intros down w. split.
  - split; [reflexivity |].
    apply (proj1 (getBankByAccountId_unique_when_store_answers
                    Scenario.healthy "a1" w)).
    reflexivity.
  - split; [reflexivity |].
    apply (proj2 (getBankByAccountId_unique_when_store_answers down "a1" w)).
    reflexivity.
Defined.

(** C5 as stated fails: with the store down, exactly one BankLink exists for
    the account [a1] and [getBankByAccountId] returns no record. *)
Lemma getBankByAccountId_null_despite_unique_link :
  let svc := Scenario.services [Scenario.checking] true true false
               (fun id => Ok (Scenario.encode id)) in
  let w := {| users := []; banks := [Scenario.link_a1]; trace := [] |} in
  ~ ((exists d, fst (getBankByAccountId svc "a1" w) = Return (Some d)) <->
     length (bank_links_for "a1" w) = 1).
Proof.
  intros svc w [_ H].
  destruct (H eq_refl) as (d & Hd).
  vm_compute in Hd. discriminate Hd.
Qed.

(** ** The boundary of an action *)

(** A body under a handler that logs and returns [none] never lets an
    exception out, and turns every exception of the body into [none]. *)
Lemma catch_contained {A : Type} (none : A) (tag : string) (body_ : M A) :
  contained none (catch body_ (fun err => console_error tag err ;; ret none))
            body_.
Proof.
  split.
  - intros w. run. destruct (body_ w) as [[v | e] w1].
    + exists v, w1. reflexivity.
    + unfold console_error, emit. run. eexists _, _. reflexivity.
  - intros w. run. destruct (body_ w) as [[v | e] w1]; reflexivity.
Qed.

(** C9, as the code has it. Every action of the two modules returns to its
    caller in every world, and an exception raised anywhere in its body
    (a rejected platform call, a [throw] of its own) comes out as the
    absence value: [null], or [undefined] for the Dwolla actions.  For the
    three record look-ups the [null] of a failed store is the [null] of "no
    matching record", so their callers cannot tell the two apart.
    [getBanks] is different: it returns the empty list when nothing matches
    and [null] when the store fails. *)
Theorem exceptions_become_absence (svc : Services) :
  ((forall o, contained None (createFundingSource svc o) (createFundingSource_body svc o)) /\
   contained JUndefined (createOnDemandAuthorization svc)
             (createOnDemandAuthorization_body svc) /\
   (forall c, contained None (createDwollaCustomer svc c) (createDwollaCustomer_body svc c)) /\
   (forall p, contained None (createTransfer svc p) (createTransfer_body svc p)) /\
   (forall p, contained None (addFundingSource svc p) (addFundingSource_body svc p)) /\
   (forall u, contained None (getUserInfo svc u) (getUserInfo_body svc u)) /\
   (forall e p, contained None (signIn svc e p) (signIn_body svc e p)) /\
   (forall p, contained None (signUp svc p) (signUp_body svc p)) /\
   contained None (getLoggedInUser svc) (getLoggedInUser_body svc) /\
   contained Null (logoutAccount svc) (logoutAccount_body svc) /\
   (forall u, contained None (createLinkToken svc u) (createLinkToken_body svc u)) /\
   (forall p, contained None (createBankAccount svc p) (createBankAccount_body svc p)) /\
   (forall t u, contained None (exchangePublicToken svc t u)
                          (exchangePublicToken_body svc t u)) /\
   (forall u, contained None (getBanks svc u) (getBanks_body svc u)) /\
   (forall d, contained None (getBank svc d) (getBank_body svc d)) /\
   (forall a, contained None (getBankByAccountId svc a) (getBankByAccountId_body svc a))) /\
  (forall (svc' : Services) (userId_ : string) (w w' : World),
     store_answers svc USER_COLLECTION_ID (Query_equal "userId" [userId_]) w = true ->
     selected USER_COLLECTION_ID (Query_equal "userId" [userId_]) w = [] ->
     store_answers svc' USER_COLLECTION_ID (Query_equal "userId" [userId_]) w' = false ->
     fst (getUserInfo svc userId_ w) = Return None /\
     fst (getUserInfo svc' userId_ w') = Return None) /\
  (forall (svc' : Services) (documentId : string) (w w' : World),
     store_answers svc BANK_COLLECTION_ID (Query_equal "$id" [documentId]) w = true ->
     selected BANK_COLLECTION_ID (Query_equal "$id" [documentId]) w = [] ->
     store_answers svc' BANK_COLLECTION_ID (Query_equal "$id" [documentId]) w' = false ->
     fst (getBank svc documentId w) = Return None /\
     fst (getBank svc' documentId w') = Return None) /\
  (forall (svc' : Services) (accountId_ : string) (w w' : World),
     store_answers svc BANK_COLLECTION_ID (Query_equal "accountId" [accountId_]) w = true ->
     bank_links_for accountId_ w = [] ->
     store_answers svc' BANK_COLLECTION_ID (Query_equal "accountId" [accountId_]) w' = false ->
     fst (getBankByAccountId svc accountId_ w) = Return None /\
     fst (getBankByAccountId svc' accountId_ w') = Return None) /\
  (forall (userId_ : string) (w : World),
     fst (getBanks svc userId_ w) =
     Return (if store_answers svc BANK_COLLECTION_ID (Query_equal "userId" [userId_]) w
             then Some (selected BANK_COLLECTION_ID (Query_equal "userId" [userId_]) w)
             else None)).
Proof.
  split; [repeat split; intros; apply catch_contained |].
  split; [| split; [| split]].
  - intros svc' u w w' Hup Hnone Hdown.
    rewrite !getUserInfo_value, Hup, Hnone, Hdown. split; reflexivity.
  - intros svc' d w w' Hup Hnone Hdown.
    rewrite !getBank_value, Hup, Hnone, Hdown. split; reflexivity.
  - intros svc' a w w' Hup Hnone Hdown.
    rewrite !getBankByAccountId_value, Hup, Hnone, Hdown. split; reflexivity.
  - intros u w. apply getBanks_value.
Qed.

(** [getBankByAccountId] on an empty ledger, and on a ledger that holds the
    BankLink while the store is down: the same [null]. *)
Lemma exceptions_become_absence_witness :
  let down := Scenario.services [Scenario.checking] true true false
                (fun id => Ok (Scenario.encode id)) in
  let w' := {| users := []; banks := [Scenario.link_a1]; trace := [] |} in
  store_answers Scenario.healthy BANK_COLLECTION_ID
    (Query_equal "accountId" ["a1"]) Scenario.genesis = true /\
  bank_links_for "a1" Scenario.genesis = [] /\
  store_answers down BANK_COLLECTION_ID (Query_equal "accountId" ["a1"]) w' = false /\
  fst (getBankByAccountId Scenario.healthy "a1" Scenario.genesis) = Return None /\
  fst (getBankByAccountId down "a1" w') = Return None.
Proof.
  intros down w'.
  split; [reflexivity |]. split; [reflexivity |]. split; [reflexivity |].
  apply (proj1 (proj2 (proj2 (proj2 (exceptions_become_absence Scenario.healthy))))
           down "a1" Scenario.genesis w');
    reflexivity.
Defined.

(** C9 as stated fails for [getBanks]: for a user without BankLinks it
    returns the empty list when the store answers and [null] when the store
    is down, so its caller can tell absence from failure. *)
Lemma getBanks_tells_absence_from_failure :
  let down := Scenario.services [Scenario.checking] true true false
                (fun id => Ok (Scenario.encode id)) in
  fst (getBanks Scenario.healthy "user_1" Scenario.genesis) = Return (Some []) /\
  fst (getBanks down "user_1" Scenario.genesis) = Return None /\
  fst (getBanks Scenario.healthy "user_1" Scenario.genesis) <>
  fst (getBanks down "user_1" Scenario.genesis).
Proof.
  intro down. split; [reflexivity |]. split; [reflexivity |].
  vm_compute. discriminate.
Qed.

(** * Beyond the linking workflow *)

(** ** Effects of the actions on the store *)

Section Effects.

Lemma read_only_ret {A : Type} (a : A) : read_only (ret a).
Proof. intros w. repeat split. exists []. split; reflexivity. Qed.

Lemma read_only_raise {A : Type} (e : error) : read_only (raise e : M A).
Proof. intros w. repeat split. exists []. split; reflexivity. Qed.

Lemma read_only_bind {A B : Type} (m : M A) (k : A -> M B) :
  read_only m -> (forall a, read_only (k a)) -> read_only (bind m k).
Proof.
  intros Hm Hk w. specialize (Hm w). run.
  destruct (m w) as [[a | e] w1]; cbn [snd] in Hm.
  - destruct Hm as (Hu & Hb & new1 & Ht & Hw).
    destruct (Hk a w1) as (Hu2 & Hb2 & new2 & Ht2 & Hw2).
    split; [congruence |]. split; [congruence |].
    exists (new2 ++ new1). split.
    + rewrite Ht2, Ht, app_assoc. reflexivity.
    + rewrite existsb_app, Hw, Hw2. reflexivity.
  - exact Hm.
Qed.

Lemma read_only_catch {A : Type} (m : M A) (h : error -> M A) :
  read_only m -> (forall e, read_only (h e)) -> read_only (catch m h).
Proof.
  intros Hm Hh w. specialize (Hm w). run.
  destruct (m w) as [[a | e] w1]; cbn [snd] in Hm.
  - exact Hm.
  - destruct Hm as (Hu & Hb & new1 & Ht & Hw).
    destruct (Hh e w1) as (Hu2 & Hb2 & new2 & Ht2 & Hw2).
    split; [congruence |]. split; [congruence |].
    exists (new2 ++ new1). split.
    + rewrite Ht2, Ht, app_assoc. reflexivity.
    + rewrite existsb_app, Hw, Hw2. reflexivity.
Qed.

Lemma read_only_await {A : Type} (ask : World -> reply A) (ev : reply A -> event) :
  (forall r, writes (ev r) = false) -> read_only (await ask ev).
Proof.
  intros Hev w. unfold await.
  destruct (ask w) as [a | d]; cbn [snd]; run; repeat split;
    eexists [_]; (split; [reflexivity |]); cbn [existsb]; rewrite Hev; reflexivity.
Qed.

Lemma read_only_emit (ev : event) : writes ev = false -> read_only (emit ev).
Proof.
  intros Hev w. unfold emit. cbn [snd]. run. repeat split.
  exists [ev]. split; [reflexivity |]. cbn [existsb]. rewrite Hev. reflexivity.
Qed.

Lemma read_only_util {A : Type} (r : reply A) : read_only (util r).
Proof.
  intros w. unfold util. destruct r; cbn [snd]; repeat split; exists [];
    split; reflexivity.
Qed.

Lemma read_only_listDocuments (svc : Services) (c : collection) (q : query) :
  read_only (database_listDocuments svc c q).
Proof.
  intros w. unfold database_listDocuments.
  destruct (listDocuments_fault svc w c q); cbn [snd]; run; repeat split;
    eexists [_]; split; reflexivity.
Qed.

Lemma read_only_ID_unique (svc : Services) : read_only (ID_unique_ svc).
Proof. intros w. repeat split. exists []. split; reflexivity. Qed.

Lemma read_only_get_property (j : json) (k : string) : read_only (get_property j k).
Proof.
  destruct j; cbn [get_property];
    first [apply read_only_ret | apply read_only_raise].
Qed.

End Effects.

Ltac read_only_step :=
  match goal with
  | |- read_only (ret _) => apply read_only_ret
  | |- read_only (raise _) => apply read_only_raise
  | |- read_only (bind _ _) => apply read_only_bind; [| intros]
  | |- read_only (catch _ _) => apply read_only_catch; [| intros]
  | |- read_only (await _ _) => apply read_only_await; intros; reflexivity
  | |- read_only (emit _) => apply read_only_emit; reflexivity
  | |- read_only (util _) => apply read_only_util
  | |- read_only (ID_unique_ _) => apply read_only_ID_unique
  | |- read_only (get_property _ _) => apply read_only_get_property
  | |- read_only (database_listDocuments _ _ _) => apply read_only_listDocuments
  | |- read_only (match ?x with _ => _ end) => destruct x
  | |- read_only (let _ := _ in _) => cbv zeta
  end.

Create HintDb read_only.

Ltac read_only_auto :=
  repeat (first [solve [auto 1 with read_only nocore] | read_only_step]).

Section ReadOnlyActions.
Variable svc : Services.

Lemma read_only_post path payload : read_only (post svc path payload).
Proof. unfold post. read_only_auto. Qed.

Lemma read_only_console_error tag e : read_only (console_error tag e).
Proof. unfold console_error. read_only_auto. Qed.

Lemma read_only_console_warn tag : read_only (console_warn tag).
Proof. unfold console_warn. read_only_auto. Qed.

#[local] Hint Resolve read_only_post read_only_console_error
  read_only_console_warn : read_only.

Lemma read_only_createFundingSource o : read_only (createFundingSource svc o).
Proof. unfold createFundingSource, createFundingSource_body. read_only_auto. Qed.

Lemma read_only_createOnDemandAuthorization :
  read_only (createOnDemandAuthorization svc).
Proof.
  unfold createOnDemandAuthorization, createOnDemandAuthorization_body.
  read_only_auto.
Qed.

Lemma read_only_createDwollaCustomer c : read_only (createDwollaCustomer svc c).
Proof. unfold createDwollaCustomer, createDwollaCustomer_body. read_only_auto. Qed.

Lemma read_only_createTransfer p : read_only (createTransfer svc p).
Proof. unfold createTransfer, createTransfer_body. read_only_auto. Qed.

#[local] Hint Resolve read_only_createFundingSource
  read_only_createOnDemandAuthorization read_only_createDwollaCustomer
  : read_only.

Lemma read_only_addFundingSource p : read_only (addFundingSource svc p).
Proof. unfold addFundingSource, addFundingSource_body. read_only_auto. Qed.

Lemma read_only_getUserInfo u : read_only (getUserInfo svc u).
Proof.
  unfold getUserInfo, or_null, getUserInfo_body, admin_client. read_only_auto.
Qed.

#[local] Hint Resolve read_only_addFundingSource read_only_getUserInfo : read_only.

Lemma read_only_signIn e p : read_only (signIn svc e p).
Proof. unfold signIn, or_null, signIn_body, admin_client. read_only_auto. Qed.

Lemma read_only_getLoggedInUser : read_only (getLoggedInUser svc).
Proof.
  unfold getLoggedInUser, or_null, getLoggedInUser_body, session_client.
  read_only_auto.
Qed.

Lemma read_only_logoutAccount : read_only (logoutAccount svc).
Proof. unfold logoutAccount, logoutAccount_body, session_client. read_only_auto. Qed.

Lemma read_only_createLinkToken u : read_only (createLinkToken svc u).
Proof. unfold createLinkToken, or_null, createLinkToken_body. read_only_auto. Qed.

Lemma read_only_getBanks u : read_only (getBanks svc u).
Proof. unfold getBanks, or_null, getBanks_body, admin_client. read_only_auto. Qed.

Lemma read_only_getBank d : read_only (getBank svc d).
Proof. unfold getBank, or_null, getBank_body, admin_client. read_only_auto. Qed.

Lemma read_only_getBankByAccountId a : read_only (getBankByAccountId svc a).
Proof.
  unfold getBankByAccountId, or_null, getBankByAccountId_body, admin_client.
  read_only_auto.
Qed.

End ReadOnlyActions.

(** X1. Thirteen of the sixteen actions never write: whatever the platforms
    answer and whether the action returns a value or the absence signal,
    both collections are afterwards exactly as they were, and no event the
    action adds to the trace is a [createDocument].  (The three others are
    [createBankAccount], [exchangePublicToken] and [signUp].) *)
Theorem thirteen_actions_never_write (svc : Services) :
  (forall o, read_only (createFundingSource svc o)) /\
  read_only (createOnDemandAuthorization svc) /\
  (forall c, read_only (createDwollaCustomer svc c)) /\
  (forall p, read_only (createTransfer svc p)) /\
  (forall p, read_only (addFundingSource svc p)) /\
  (forall u, read_only (getUserInfo svc u)) /\
  (forall e p, read_only (signIn svc e p)) /\
  read_only (getLoggedInUser svc) /\
  read_only (logoutAccount svc) /\
  (forall u, read_only (createLinkToken svc u)) /\
  (forall u, read_only (getBanks svc u)) /\
  (forall d, read_only (getBank svc d)) /\
  (forall a, read_only (getBankByAccountId svc a)).
Proof.
  repeat split; intros;
    first [ apply read_only_createFundingSource
          | apply read_only_createOnDemandAuthorization
          | apply read_only_createDwollaCustomer
          | apply read_only_createTransfer
          | apply read_only_addFundingSource
          | apply read_only_getUserInfo
          | apply read_only_signIn
          | apply read_only_getLoggedInUser
          | apply read_only_logoutAccount
          | apply read_only_createLinkToken
          | apply read_only_getBanks
          | apply read_only_getBank
          | apply read_only_getBankByAccountId ].
Qed.

Section Appends.

Variable svc : Services.

Lemma adds_of_read_only {A : Type} (ku kb : nat) (m : M A) :
  read_only m -> adds_at_most ku kb m.
Proof.
  intros H w. destruct (H w) as (Hu & Hb & _).
  split; exists []; rewrite app_nil_r; (split; [assumption | apply Nat.le_0_l]).
Qed.

Lemma adds_bind_after {A B : Type} (ku kb : nat) (m : M A) (k : A -> M B) :
  read_only m -> (forall a, adds_at_most ku kb (k a)) ->
  adds_at_most ku kb (bind m k).
Proof.
  intros Hm Hk w. destruct (Hm w) as (Hu & Hb & _). run.
  destruct (m w) as [[a | e] w1]; cbn [snd] in Hu, Hb.
  - destruct (Hk a w1) as ((du & Hdu & Hlu) & (db & Hdb & Hlb)).
    split; [exists du | exists db]; split; congruence || assumption.
  - cbn [snd]. split; exists []; rewrite app_nil_r;
      (split; [assumption | apply Nat.le_0_l]).
Qed.

Lemma adds_bind_before {A B : Type} (ku kb : nat) (m : M A) (k : A -> M B) :
  adds_at_most ku kb m -> (forall a, read_only (k a)) ->
  adds_at_most ku kb (bind m k).
Proof.
  intros Hm Hk w. destruct (Hm w) as ((du & Hdu & Hlu) & (db & Hdb & Hlb)). run.
  destruct (m w) as [[a | e] w1]; cbn [snd] in Hdu, Hdb.
  - destruct (Hk a w1) as (Hu & Hb & _).
    split; [exists du | exists db]; split; congruence || assumption.
  - cbn [snd]. split; [exists du | exists db]; split; assumption.
Qed.

Lemma adds_catch {A : Type} (ku kb : nat) (m : M A) (h : error -> M A) :
  adds_at_most ku kb m -> (forall e, read_only (h e)) ->
  adds_at_most ku kb (catch m h).
Proof.
  intros Hm Hh w. destruct (Hm w) as ((du & Hdu & Hlu) & (db & Hdb & Hlb)). run.
  destruct (m w) as [[a | e] w1]; cbn [snd] in Hdu, Hdb.
  - cbn [snd]. split; [exists du | exists db]; split; assumption.
  - destruct (Hh e w1) as (Hu & Hb & _).
    split; [exists du | exists db]; split; congruence || assumption.
Qed.

Lemma adds_createDocument_bank (id : string) (data : list (string * json)) :
  adds_at_most 0 1 (database_createDocument svc BANK_COLLECTION_ID id data).
Proof.
  intros w. unfold database_createDocument.
  destruct (createDocument_fault svc w BANK_COLLECTION_ID data); cbn [snd]; run.
  - split; [exists [] | eexists [_]]; cbn [length];
      rewrite ?app_nil_r; split; auto.
  - split; exists []; rewrite app_nil_r; split; auto.
Qed.

Lemma adds_createDocument_user (id : string) (data : list (string * json)) :
  adds_at_most 1 0 (database_createDocument svc USER_COLLECTION_ID id data).
Proof.
  intros w. unfold database_createDocument.
  destruct (createDocument_fault svc w USER_COLLECTION_ID data); cbn [snd]; run.
  - split; [eexists [_] | exists []]; cbn [length];
      rewrite ?app_nil_r; split; auto.
  - split; exists []; rewrite app_nil_r; split; auto.
Qed.

End Appends.

Ltac adds_step :=
  match goal with
  | |- adds_at_most _ _ (database_createDocument _ BANK_COLLECTION_ID _ _) =>
      apply adds_createDocument_bank
  | |- adds_at_most _ _ (database_createDocument _ USER_COLLECTION_ID _ _) =>
      apply adds_createDocument_user
  | |- adds_at_most _ _ (catch _ _) =>
      apply adds_catch; [| intros; read_only_auto]
  | |- adds_at_most _ _ (bind (database_createDocument _ _ _ _) _) =>
      apply adds_bind_before; [| intros; read_only_auto]
  | |- adds_at_most _ _ (bind _ _) =>
      apply adds_bind_after; [solve [read_only_auto] | intros]
  | |- adds_at_most _ _ (match ?x with _ => _ end) => destruct x
  | |- adds_at_most _ _ (let _ := _ in _) => cbv zeta
  | |- adds_at_most _ _ _ => apply adds_of_read_only; solve [read_only_auto]
  end.

Section Writers.

Variable svc : Services.

#[local] Hint Resolve read_only_post read_only_console_error
  read_only_console_warn read_only_addFundingSource read_only_createDwollaCustomer
  read_only_getUserInfo : read_only.

Lemma adds_createBankAccount (p : createBankAccountProps) :
  adds_at_most 0 1 (createBankAccount svc p).
Proof.
  unfold createBankAccount, or_null, createBankAccount_body, admin_client.
  repeat adds_step.
Qed.

Lemma adds_exchangePublicToken (t : string) (u : User) :
  adds_at_most 0 1 (exchangePublicToken svc t u).
Proof.
  unfold exchangePublicToken, or_null, exchangePublicToken_body, revalidatePath.
  repeat first
    [ match goal with
      | |- adds_at_most _ _ (bind (createBankAccount _ _) _) =>
          apply adds_bind_before;
          [apply adds_createBankAccount | intros; read_only_auto]
      end
    | adds_step ].
Qed.

Lemma adds_signUp (p : SignUpParams.t) : adds_at_most 1 0 (signUp svc p).
Proof.
  unfold signUp, or_null, signUp_body, admin_client.
  repeat adds_step.
Qed.

End Writers.

(** X2. The three writers only append, and at most one document per call:
    [createBankAccount] and [exchangePublicToken] keep every user document
    and every BankLink and add at most one BankLink; [signUp] keeps both
    collections and adds at most one user document.  This holds for every
    outcome of the call, also when it returns [null]. *)
Theorem writers_append_at_most_one (svc : Services) :
  (forall p, adds_at_most 0 1 (createBankAccount svc p)) /\
  (forall t u, adds_at_most 0 1 (exchangePublicToken svc t u)) /\
  (forall p, adds_at_most 1 0 (signUp svc p)).
Proof.
  split; [| split]; intros.
  - apply adds_createBankAccount.
  - apply adds_exchangePublicToken.
  - apply adds_signUp.
Qed.

Section Lookups.

Variable svc : Services.

Lemma matches_dollar_id (id : string) (d : Document) :
  matches (Query_equal "$id" [id]) d = String.eqb (dollar_id d) id.
Proof. cbn. apply orb_false_r. Qed.

Lemma matches_userId (u : string) (d : Document) :
  matches (Query_equal "userId" [u]) d = has_userId u d.
Proof.
  unfold matches, has_userId. cbn [String.eqb Ascii.eqb Bool.eqb].
  destruct (obj_get "userId" (attributes d)); try reflexivity.
  cbn [existsb]. apply orb_false_r.
Qed.

Lemma selected_by_dollar_id (id : string) (w : World) :
  selected BANK_COLLECTION_ID (Query_equal "$id" [id]) w =
  filter (fun d => String.eqb (dollar_id d) id) (banks w).
Proof. unfold selected, store. apply filter_ext. apply matches_dollar_id. Qed.

Lemma selected_bank_links_of_user (u : string) (w : World) :
  selected BANK_COLLECTION_ID (Query_equal "userId" [u]) w = bank_links_of_user u w.
Proof. unfold selected, store. apply filter_ext. apply matches_userId. Qed.

Lemma selected_user_documents_of (u : string) (w : World) :
  selected USER_COLLECTION_ID (Query_equal "userId" [u]) w = user_documents_of u w.
Proof. unfold selected, store. apply filter_ext. apply matches_userId. Qed.

Lemma hd_error_filter_in {A : Type} (f : A -> bool) (l : list A) (a : A) :
  hd_error (filter f l) = Some a -> In a l /\ f a = true.
Proof.
  intros H. apply filter_In. destruct (filter f l) as [| x rest]; [discriminate |].
  injection H as ->. left. reflexivity.
Qed.

Lemma hd_error_filter_none {A : Type} (f : A -> bool) (l : list A) :
  hd_error (filter f l) = None <-> (forall a, In a l -> f a = false).
Proof.
  split.
  - intros H a Ha. destruct (f a) eqn:E; [| reflexivity].
    assert (Hin : In a (filter f l)) by (apply filter_In; auto).
    destruct (filter f l); [contradiction | discriminate].
  - intros H. destruct (filter f l) as [| x rest] eqn:E; [reflexivity |].
    assert (Hx : In x (filter f l)) by (rewrite E; left; reflexivity).
    apply filter_In in Hx. destruct Hx as [Hx Hf]. rewrite (H x Hx) in Hf.
    discriminate.
Qed.

Lemma hd_error_filter_first {A : Type} (f : A -> bool) (before after : list A) (a : A) :
  (forall x, In x before -> f x = false) -> f a = true ->
  hd_error (filter f (before ++ a :: after)) = Some a.
Proof.
  intros Hb Ha. rewrite filter_app.
  assert (E : filter f before = []).
  { induction before as [| x rest IH]; [reflexivity |].
    cbn [filter]. rewrite (Hb x) by (left; reflexivity).
    apply IH. intros y Hy. apply Hb. right. exact Hy. }
  rewrite E. cbn [app filter]. rewrite Ha. reflexivity.
Qed.

End Lookups.

(** X7. [getBank] looks a BankLink up by its document id: a record it
    returns is in the ledger and has the requested [$id]; when the store
    answers and the ledger holds a document with that id it returns one; and
    when no document has that id it returns [null]. *)
Theorem getBank_finds_by_document_id (svc : Services) (documentId : string) (w : World) :
  (forall d, fst (getBank svc documentId w) = Return (Some d) ->
             In d (banks w) /\ dollar_id d = documentId) /\
  (store_answers svc BANK_COLLECTION_ID (Query_equal "$id" [documentId]) w = true ->
   forall d, In d (banks w) -> dollar_id d = documentId ->
             exists d', fst (getBank svc documentId w) = Return (Some d')) /\
  ((forall d, In d (banks w) -> dollar_id d <> documentId) ->
   fst (getBank svc documentId w) = Return None).
Proof.
  rewrite getBank_value, selected_by_dollar_id.
  split; [| split].
  - intros d H.
    destruct (store_answers svc BANK_COLLECTION_ID _ w); [| discriminate H].
    injection H as H. apply hd_error_filter_in in H. destruct H as [Hin Heq].
    split; [exact Hin | apply String.eqb_eq; exact Heq].
  - intros -> d Hin Hid.
    destruct (hd_error (filter (fun d0 => String.eqb (dollar_id d0) documentId) (banks w)))
      as [d' |] eqn:E; [exists d'; reflexivity |].
    rewrite hd_error_filter_none in E. specialize (E d Hin). cbv beta in E.
    rewrite Hid, String.eqb_refl in E. discriminate E.
  - intros Hnone.
    destruct (store_answers svc BANK_COLLECTION_ID _ w); [| reflexivity].
    f_equal. apply hd_error_filter_none. intros d Hin. cbv beta.
    apply String.eqb_neq. apply Hnone. exact Hin.
Qed.

(** X8. When the store answers, [getBanks] returns exactly the BankLinks
    whose [userId] attribute is the given user id, in ledger order (the
    empty list when there are none); when the store does not answer it
    returns [null]. *)
Theorem getBanks_lists_the_links_of_the_user (svc : Services) (userId_ : string)
    (w : World) :
  (store_answers svc BANK_COLLECTION_ID (Query_equal "userId" [userId_]) w = true ->
   fst (getBanks svc userId_ w) = Return (Some (bank_links_of_user userId_ w)) /\
   (forall d, In d (bank_links_of_user userId_ w) <->
              In d (banks w) /\ obj_get "userId" (attributes d) = JStr userId_)) /\
  (store_answers svc BANK_COLLECTION_ID (Query_equal "userId" [userId_]) w = false ->
   fst (getBanks svc userId_ w) = Return None).
Proof.
  rewrite getBanks_value, selected_bank_links_of_user.
  split; intros ->; [| reflexivity].
  split; [reflexivity |].
  intros d. unfold bank_links_of_user. rewrite filter_In. unfold has_userId.
  split; intros [Hin H]; (split; [exact Hin |]).
  - destruct (obj_get "userId" (attributes d)); try discriminate H.
    apply String.eqb_eq in H. rewrite H. reflexivity.
  - rewrite H. apply String.eqb_refl.
Qed.

(** X9. [getUserInfo] does not ask for uniqueness: when several user
    documents carry the same [userId], it returns the first one in the
    collection and ignores the others (unlike [getBankByAccountId], which
    returns [null] on a duplicate). *)
Theorem getUserInfo_returns_the_first_match (svc : Services) (userId_ : string)
    (w : World) (before after : list Document) (d : Document) :
  store_answers svc USER_COLLECTION_ID (Query_equal "userId" [userId_]) w = true ->
  users w = before ++ d :: after ->
  (forall x, In x before -> obj_get "userId" (attributes x) <> JStr userId_) ->
  obj_get "userId" (attributes d) = JStr userId_ ->
  fst (getUserInfo svc userId_ w) = Return (Some d).
Proof.
  intros Hup Hsplit Hbefore Hd.
  rewrite getUserInfo_value, Hup, selected_user_documents_of.
  unfold user_documents_of. rewrite Hsplit. f_equal.
  apply hd_error_filter_first.
  - intros x Hx. unfold has_userId. specialize (Hbefore x Hx).
    destruct (obj_get "userId" (attributes x)); try reflexivity.
    apply String.eqb_neq. intros ->. apply Hbefore. reflexivity.
  - unfold has_userId. rewrite Hd. apply String.eqb_refl.
Qed.

Section WriteThenRead.

Variable svc : Services.

Lemma createBankAccount_success (p : createBankAccountProps) (w w1 : World)
    (doc : Document) :
  createBankAccount svc p w = (Return (Some doc), w1) ->
  users w1 = users w /\ banks w1 = banks w ++ [doc] /\
  attributes doc = bank_account_data p.
Proof.
  intros H.
  destruct (createBankAccount_effect svc p w)
    as (v & w' & new & E & Hu & _ & [(-> & _) | (doc' & -> & Hb & Hattr & _)]);
    rewrite H in E.
  - discriminate E.
  - injection E as -> ->. auto.
Qed.

Lemma has_userId_bank_account_data (p : createBankAccountProps) (doc : Document) :
  attributes doc = bank_account_data p -> has_userId (userId p) doc = true.
Proof.
  intros H. unfold has_userId. rewrite H. cbn. apply String.eqb_refl.
Qed.

End WriteThenRead.

(** X10. Write, then read by id: the document that [createBankAccount]
    returns is the one [getBank] gives back for its [$id], provided the id
    is fresh in the ledger and the store answers. *)
Theorem createBankAccount_then_getBank (svc : Services) (p : createBankAccountProps)
    (w w1 : World) (doc : Document) :
  createBankAccount svc p w = (Return (Some doc), w1) ->
  (forall d, In d (banks w) -> dollar_id d <> dollar_id doc) ->
  store_answers svc BANK_COLLECTION_ID (Query_equal "$id" [dollar_id doc]) w1 = true ->
  fst (getBank svc (dollar_id doc) w1) = Return (Some doc).
Proof.
  intros Hrun Hfresh Hup.
  destruct (createBankAccount_success svc p w w1 doc Hrun) as (_ & Hb & _).
  rewrite getBank_value, Hup, selected_by_dollar_id, Hb. f_equal.
  apply hd_error_filter_first with (after := []).
  - intros x Hx. apply String.eqb_neq. apply Hfresh. exact Hx.
  - apply String.eqb_refl.
Qed.

(** X11. Write, then list: after [createBankAccount] returned a document,
    [getBanks] for the same user returns the user's earlier BankLinks
    followed by the new one. *)
Theorem createBankAccount_then_getBanks (svc : Services) (p : createBankAccountProps)
    (w w1 : World) (doc : Document) :
  createBankAccount svc p w = (Return (Some doc), w1) ->
  store_answers svc BANK_COLLECTION_ID (Query_equal "userId" [userId p]) w1 = true ->
  fst (getBanks svc (userId p) w1) =
  Return (Some (bank_links_of_user (userId p) w ++ [doc])).
Proof.
  intros Hrun Hup.
  destruct (createBankAccount_success svc p w w1 doc Hrun) as (_ & Hb & Hattr).
  rewrite getBanks_value, Hup, selected_bank_links_of_user.
  unfold bank_links_of_user. rewrite Hb, filter_app. cbn [filter].
  rewrite (has_userId_bank_account_data p doc Hattr). reflexivity.
Qed.

(** X12. [createBankAccount] never checks whether the account is linked
    already.  After it returned a document for account [a],
    [getBankByAccountId a] returns that document if [a] had no BankLink
    before, and [null] if it had one: a second link makes the account
    impossible to look up. *)
Theorem createBankAccount_then_getBankByAccountId (svc : Services)
    (p : createBankAccountProps) (w w1 : World) (doc : Document) (a : string) :
  createBankAccount svc p w = (Return (Some doc), w1) ->
  accountId p = Some a ->
  store_answers svc BANK_COLLECTION_ID (Query_equal "accountId" [a]) w1 = true ->
  fst (getBankByAccountId svc a w1) =
  Return (match bank_links_for a w with
          | [] => Some doc
          | _ :: _ => None
          end).
Proof.
  intros Hrun Ha Hup.
  destruct (createBankAccount_success svc p w w1 doc Hrun) as (_ & Hb & Hattr).
  rewrite getBankByAccountId_value, Hup.
  unfold bank_links_for. rewrite Hb, filter_app. cbn [filter].
  rewrite Hattr. unfold bank_account_data. rewrite Ha.
  cbn [obj_get String.eqb Ascii.eqb Bool.eqb jstr]. rewrite String.eqb_refl.
  destruct (filter _ (banks w)) as [| d1 [| d2 rest]]; reflexivity.
Qed.

Section MoreLinking.

Variable svc : Services.

(** X13. When the account retrieval is rejected, or the processor token
    is refused after a valid first account was retrieved,
    [exchangePublicToken] returns [null]; its trace ends with the rejected
    Plaid call and the handler's log line, so Dwolla was never asked and
    nothing was written. *)
Theorem plaid_failure_aborts_before_dwolla (publicToken : string) (user : User)
    (w : World) (tokens : string * string) (first : AccountBase)
    (rest : list AccountBase) (d : string) :
  itemPublicTokenExchange svc w publicToken = Ok tokens ->
  (accountsGet svc (after_exchange publicToken tokens w) (fst tokens) = Fails d ->
   exists w',
     exchangePublicToken svc publicToken user w = (Return None, w') /\
     users w' = users w /\ banks w' = banks w /\
     trace w' =
       [ ConsoleError "[exchangePublicToken] Error:" (Rejected d);
         AccountsGet (fst tokens) (Fails d);
         ItemPublicTokenExchange publicToken (Ok tokens) ] ++ trace w) /\
  (accountsGet svc (after_exchange publicToken tokens w) (fst tokens) =
     Ok (first :: rest) ->
   truthy (account_id first) = true ->
   processorTokenCreate svc (after_accounts publicToken tokens (first :: rest) w)
                        (processor_request tokens first) = Fails d ->
   exists w',
     exchangePublicToken svc publicToken user w = (Return None, w') /\
     users w' = users w /\ banks w' = banks w /\
     trace w' =
       [ ConsoleError "[exchangePublicToken] Error:" (Rejected d);
         ProcessorTokenCreate (processor_request tokens first) (Fails d);
         AccountsGet (fst tokens) (Ok (first :: rest));
         ItemPublicTokenExchange publicToken (Ok tokens) ] ++ trace w).
Proof.
  intros H1. split.
  - intros H2. unfold_link. run. rewrite H1. run. rewrite H2. run.
    eexists. repeat split.
  - intros H2 H3 H4. unfold_link. run. rewrite H1. run. rewrite H2. run.
    rewrite H3. run. rewrite H4. run. eexists. repeat split.
Qed.

(** X14. When the funding source has been created and [encryptId] then
    throws or returns the empty string, [exchangePublicToken] returns
    [null] without attempting the write: both collections are unchanged,
    while the funding source stays registered at Dwolla (its accepted
    creation request is in the trace; nothing retracts it). *)
Theorem encoding_failure_leaves_the_funding_source (publicToken : string)
    (user : User) (w : World) (tokens : string * string) (first : AccountBase)
    (rest : list AccountBase) (id pt url : string) (w4 : World)
    (answer : reply string) :
  itemPublicTokenExchange svc w publicToken = Ok tokens ->
  accountsGet svc (after_exchange publicToken tokens w) (fst tokens) =
    Ok (first :: rest) ->
  account_id first = Some id -> id <> "" ->
  processorTokenCreate svc (after_accounts publicToken tokens (first :: rest) w)
                       (processor_request tokens first) = Ok pt ->
  addFundingSource svc (funding_request user first pt)
    (after_processor_token publicToken tokens (first :: rest) first pt w) =
    (Return (Some url), w4) ->
  encryptId svc id = answer ->
  (answer = Ok "" \/ exists d, answer = Fails d) ->
  exists w' new res,
    exchangePublicToken svc publicToken user w = (Return None, w') /\
    users w' = users w /\ banks w' = banks w /\
    trace w' =
      ConsoleError "[exchangePublicToken] Error:"
        (match answer with
         | Ok _ => Error "Failed to generate shareableId"
         | Fails d => Rejected d
         end) :: trace w4 /\
    trace w' = new ++ trace w /\ existsb persists new = false /\
    In (DwollaPost ("customers/" ++ user_dwollaCustomerId user ++ "/funding-sources")
          (Some (JObj [ ("name", JStr (name first)); ("plaidToken", JStr pt) ]))
          (Ok res)) (trace w') /\
    headers_location res = Some url.
Proof.
  intros H1 H2 Hid Hne H3 H4 H5 Hanswer.
  destruct (addFundingSource_effect svc (funding_request user first pt)
              (after_processor_token publicToken tokens (first :: rest) first pt w))
    as (url' & w4' & new & E & Hu & Hb & Ht & Hp & Hurl).
  destruct (addFundingSource_order svc (funding_request user first pt)
              (after_processor_token publicToken tokens (first :: rest) first pt w))
    as (url'' & w4'' & r1 & r2 & l1 & l2 & E' & Ht' & _ & _ & Hloc).
  rewrite H4 in E, E'. injection E as <- <-. injection E' as <- <-.
  destruct Hurl as [Hurl | Hurl]; [discriminate Hurl |].
  destruct Hloc as [Hloc | (res & -> & Hloc)]; [discriminate Hloc |].
  cbn [funding_request dwollaCustomerId bankName processorToken] in Ht'.
  assert (Hrun : exchangePublicToken svc publicToken user w =
                 (Return None,
                  record_event
                    (ConsoleError "[exchangePublicToken] Error:"
                       (match answer with
                        | Ok _ => Error "Failed to generate shareableId"
                        | Fails d => Rejected d
                        end)) w4)).
  { unfold_link. run. rewrite H1. run. rewrite H2. run. rewrite Hid in *.
    rewrite (truthy_nonempty id Hne). run. rewrite H3. run. rewrite H4. run.
    rewrite Hurl. run. rewrite H5.
    destruct Hanswer as [-> | (d & ->)]; reflexivity. }
  eexists _, (_ :: new ++ [_; _; _]), res. split; [exact Hrun |].
  split; [exact Hu |]. split; [exact Hb |]. split; [reflexivity |].
  split.
  { cbn [trace record_event]. rewrite Ht.
    unfold after_processor_token, after_accounts, after_exchange.
    cbn [app trace record_event]. rewrite <- app_assoc. reflexivity. }
  split.
  { cbn [existsb persists orb]. rewrite existsb_app, Hp. reflexivity. }
  split; [| symmetry; exact Hloc].
  right. rewrite Ht'. apply in_or_app. right. left. reflexivity.
Qed.

(** X15. A [null] from [exchangePublicToken] does not mean that nothing was
    written: when every step up to and including the write goes through and
    [revalidatePath] then throws, the call returns [null] and the new
    BankLink is in the ledger, with the fields of the record layout. *)
Theorem revalidation_failure_hides_a_committed_link (publicToken : string)
    (user : User) (w : World) (tokens : string * string) (first : AccountBase)
    (rest : list AccountBase) (id pt url shareable d : string) (w4 w5 : World)
    (doc : Document) :
  itemPublicTokenExchange svc w publicToken = Ok tokens ->
  accountsGet svc (after_exchange publicToken tokens w) (fst tokens) =
    Ok (first :: rest) ->
  account_id first = Some id -> id <> "" ->
  processorTokenCreate svc (after_accounts publicToken tokens (first :: rest) w)
                       (processor_request tokens first) = Ok pt ->
  addFundingSource svc (funding_request user first pt)
    (after_processor_token publicToken tokens (first :: rest) first pt w) =
    (Return (Some url), w4) ->
  encryptId svc id = Ok shareable -> shareable <> "" ->
  createBankAccount svc (link_props user tokens first url shareable) w4 =
    (Return (Some doc), w5) ->
  next_revalidatePath svc w5 "/" = Fails d ->
  exists w',
    exchangePublicToken svc publicToken user w = (Return None, w') /\
    banks w' = banks w ++ [doc] /\
    attributes doc = bank_link_data user tokens id url shareable /\
    trace w' =
      [ ConsoleError "[exchangePublicToken] Error:" (Rejected d);
        RevalidatePath "/" (Fails d) ] ++ trace w5.
Proof.
  intros H1 H2 Hid Hne H3 H4 H5 Hs H6 H7.
  destruct (addFundingSource_effect svc (funding_request user first pt)
              (after_processor_token publicToken tokens (first :: rest) first pt w))
    as (url' & w4' & new & E & Hu & Hb & Ht & Hp & Hurl).
  rewrite H4 in E. injection E as <- <-.
  destruct Hurl as [Hurl | Hurl]; [discriminate Hurl |].
  destruct (createBankAccount_success svc _ _ _ _ H6) as (Hu5 & Hb5 & Hattr).
  unfold link_props in H6, Hattr.
  unfold_link. run. rewrite H1. run. rewrite H2. run. rewrite Hid in *.
  rewrite (truthy_nonempty id Hne). run. rewrite H3. run. rewrite H4. run.
  rewrite Hurl. run. rewrite H5. run. rewrite (truthy_nonempty shareable Hs). run.
  rewrite H6. run. rewrite H7. run.
  eexists. split; [reflexivity |].
  split; [run; rewrite Hb5, Hb; reflexivity |].
  split; [exact Hattr | reflexivity].
Qed.

(** X16. When [exchangePublicToken] returns its completion marker and the
    ledger has changed, exactly one BankLink was appended; its six fields
    are the user's id, the item id and the access token of the exchange,
    the id of the first account retrieved, the location Dwolla gave to the
    new funding source, and the shareable id, which decodes to the account
    id under any inverse [decryptId] of the encoding. *)
Theorem committed_link_has_the_record_layout (decryptId : string -> string)
    (publicToken : string) (user : User) (w w' : World) (x : PublicTokenExchange) :
  (forall id s, encryptId svc id = Ok s -> decryptId s = id) ->
  exchangePublicToken svc publicToken user w = (Return (Some x), w') ->
  banks w' <> banks w ->
  exists (doc : Document) (tokens : string * string) (first : AccountBase)
         (rest : list AccountBase) (id pt url shareable : string)
         (res : Response),
    users w' = users w /\
    banks w' = banks w ++ [doc] /\
    attributes doc =
      [ ("userId", JStr (user_id user));
        ("bankId", JStr (snd tokens));
        ("accountId", JStr id);
        ("accessToken", JStr (fst tokens));
        ("fundingSourceUrl", JStr url);
        ("shareableId", JStr shareable) ] /\
    In (ItemPublicTokenExchange publicToken (Ok tokens)) (trace w') /\
    In (AccountsGet (fst tokens) (Ok (first :: rest))) (trace w') /\
    account_id first = Some id /\
    In (DwollaPost ("customers/" ++ user_dwollaCustomerId user ++ "/funding-sources")
          (Some (JObj [ ("name", JStr (name first)); ("plaidToken", JStr pt) ]))
          (Ok res)) (trace w') /\
    headers_location res = Some url /\
    decryptId shareable = id.
Proof.
  intros Hround Hrun Hnew.
  destruct (exchangePublicToken_success_inv svc _ _ _ _ _ Hrun)
    as (_ & Hu & tokens & first & rest & id & pt & url & s & res & Hex & Hin & Hid
        & _ & _ & Hfs & Hloc & Henc & _ & Hcases).
  destruct Hcases as [(doc & Hb & Hattr) | (Hb & _)]; [| contradiction].
  exists doc, tokens, first, rest, id, pt, url, s, res.
  repeat split; auto.
Qed.

(** X17. Link, then look up: after a linking call that returned its marker
    and wrote a BankLink, [getBankByAccountId] for the linked account id
    returns exactly that BankLink if the account had none before, and
    [null] if it had (the workflow does not guard against linking an
    account twice). *)
Theorem linked_account_is_found_by_its_account_id (publicToken : string)
    (user : User) (w w' : World) (x : PublicTokenExchange) :
  exchangePublicToken svc publicToken user w = (Return (Some x), w') ->
  banks w' <> banks w ->
  exists (doc : Document) (id : string),
    banks w' = banks w ++ [doc] /\
    obj_get "accountId" (attributes doc) = JStr id /\
    (store_answers svc BANK_COLLECTION_ID (Query_equal "accountId" [id]) w' = true ->
     fst (getBankByAccountId svc id w') =
     Return (match bank_links_for id w with
             | [] => Some doc
             | _ :: _ => None
             end)).
Proof.
  intros Hrun Hnew.
  destruct (exchangePublicToken_success_inv svc _ _ _ _ _ Hrun)
    as (_ & Hu & tokens & first & rest & id & pt & url & s & res & _ & _ & _
        & _ & _ & _ & _ & _ & _ & Hcases).
  destruct Hcases as [(doc & Hb & Hattr) | (Hb & _)]; [| contradiction].
  exists doc, id. split; [exact Hb |].
  split; [rewrite Hattr; reflexivity |].
  intros Hup. rewrite getBankByAccountId_value, Hup.
  unfold bank_links_for. rewrite Hb, filter_app. cbn [filter].
  rewrite Hattr. unfold bank_link_data.
  cbn [obj_get String.eqb Ascii.eqb Bool.eqb]. rewrite String.eqb_refl.
  destruct (filter _ (banks w)) as [| d1 [| d2 rest']]; reflexivity.
Qed.

End MoreLinking.

Section MoreDwolla.

Variable svc : Services.


(** A customer given without a state goes out with nine keys. *)
Example createDwollaCustomer_without_state :
  let c := {| firstName := "Bob"; lastName := "Ray"; email := "bob@example.com";
              address1 := "1 Main St"; city := "Albany"; state := None;
              postalCode := "12207"; dateOfBirth := "1990-01-01"; ssn := "1234";
              type_ := "personal" |} in
  match trace (snd (createDwollaCustomer Scenario.healthy c Scenario.genesis)) with
  | [ _; DwollaPost "customers" (Some (JObj fields)) _ ] =>
      map fst fields =
        [ "firstName"; "lastName"; "email"; "address1"; "city"; "postalCode";
          "dateOfBirth"; "ssn"; "type" ]
  | _ => False
  end.
Proof. vm_compute. reflexivity. Qed.

Lemma single_post_location (path : string) (payload : option json)
    (tag : string) (w : World) (url : string) :
  fst (catch (res <- post svc path payload ;; ret (or_undefined (headers_location res)))
             (fun err => console_error tag err ;; ret None) w) = Return (Some url) ->
  url <> "" /\
  exists res, dwollaClient_post svc w path payload = Ok res /\
              headers_location res = Some url.
Proof.
  unfold post, await, console_error, emit. run.
  destruct (dwollaClient_post svc w path payload) as [res | d]; run; cbn [fst].
  - intros [= H]. apply or_undefined_some in H. destruct H as [H Hne].
    split; [exact Hne |]. exists res. split; [reflexivity | exact H].
  - discriminate.
Qed.

(** X4. A reference returned by [createFundingSource],
    [createDwollaCustomer], [createTransfer] or [addFundingSource] is never
    the empty string, and it is the [location] header of the response that
    Dwolla gave to the creation request of that very call. *)
Theorem dwolla_references_are_locations (w : World) (url : string) :
  (forall o,
     fst (createFundingSource svc o w) = Return (Some url) ->
     url <> "" /\
     exists res,
       dwollaClient_post svc w ("customers/" ++ customerId o ++ "/funding-sources")
         (Some (JObj [ ("name", JStr (fundingSourceName o));
                       ("plaidToken", JStr (plaidToken o)) ])) = Ok res /\
       headers_location res = Some url) /\
  (forall c,
     fst (createDwollaCustomer svc c w) = Return (Some url) ->
     url <> "" /\
     exists res,
       dwollaClient_post svc w "customers" (Some (customer_json c)) = Ok res /\
       headers_location res = Some url) /\
  (forall p,
     fst (createTransfer svc p w) = Return (Some url) ->
     url <> "" /\
     exists res,
       dwollaClient_post svc w "transfers" (Some (transfer_json p)) = Ok res /\
       headers_location res = Some url) /\
  (forall p,
     fst (addFundingSource svc p w) = Return (Some url) ->
     url <> "" /\
     exists res,
       In (DwollaPost ("customers/" ++ dwollaCustomerId p ++ "/funding-sources")
             (Some (JObj [ ("name", JStr (bankName p));
                           ("plaidToken", JStr (processorToken p)) ]))
             (Ok res))
          (trace (snd (addFundingSource svc p w))) /\
       headers_location res = Some url).
Proof.
  split; [| split; [| split]].
  - intros o. apply single_post_location.
  - intros c. apply single_post_location.
  - intros p. apply single_post_location.
  - intros p H.
    destruct (addFundingSource_order svc p w)
      as (url' & w' & r1 & r2 & l1 & l2 & E & Ht & _ & _ & Hloc).
    rewrite E in H |- *. cbn [fst snd] in *. injection H as ->.
    destruct Hloc as [Hloc | (res & -> & Hloc)]; [discriminate Hloc |].
    symmetry in Hloc.
    split.
    + destruct (addFundingSource_effect svc p w)
        as (u2 & w2 & new & E2 & _ & _ & _ & _ & Hurl).
      rewrite E in E2. injection E2 as <- <-.
      destruct Hurl as [Hurl | Hurl]; [discriminate Hurl |].
      apply truthy_some. exact Hurl.
    + exists res. split; [| exact Hloc].
      rewrite Ht. apply in_or_app. right. left. reflexivity.
Qed.

(** X5. [addFundingSource] always returns, leaves both collections alone
    and sends exactly two requests to Dwolla, in this order: the
    authorization, then the creation for the given customer with the bank
    name and the processor token; the creation is sent whatever the
    authorization answered. *)
Theorem addFundingSource_asks_twice_in_order (p : AddFundingSourceParams) (w : World) :
  exists (url : option string) (w' : World) (r1 r2 : reply Response)
         (l1 l2 : list event),
    addFundingSource svc p w = (Return url, w') /\
    users w' = users w /\ banks w' = banks w /\
    trace w' =
      l2 ++
      DwollaPost ("customers/" ++ dwollaCustomerId p ++ "/funding-sources")
                 (Some (JObj [ ("name", JStr (bankName p));
                               ("plaidToken", JStr (processorToken p)) ])) r2
      :: l1 ++ DwollaPost "on-demand-authorizations" None r1 :: trace w /\
    existsb provisions l1 = false /\ existsb provisions l2 = false.
Proof.
  destruct (addFundingSource_order svc p w)
    as (url & w' & r1 & r2 & l1 & l2 & E & Ht & Hp1 & Hp2 & _).
  destruct (addFundingSource_effect svc p w)
    as (u2 & w2 & new & E2 & Hu & Hb & _).
  rewrite E in E2. injection E2 as <- <-.
  exists url, w', r1, r2, l1, l2. auto 10.
Qed.

(** X6. [createOnDemandAuthorization] returns the [_links] member of the
    response body; it returns [undefined] when the body has no such member,
    when the body is not an object (a read on [null] or [undefined] throws
    and is caught), and when Dwolla rejects the request. *)
Theorem createOnDemandAuthorization_value (w : World) :
  fst (createOnDemandAuthorization svc w) =
  Return (match dwollaClient_post svc w "on-demand-authorizations" None with
          | Ok res =>
              match body res with
              | JObj fields => obj_get "_links" fields
              | _ => JUndefined
              end
          | Fails _ => JUndefined
          end).
Proof.
  unfold createOnDemandAuthorization, createOnDemandAuthorization_body, post,
    await, console_error, emit.
  run.
  destruct (dwollaClient_post svc w "on-demand-authorizations" None) as [res | d];
    run; [| reflexivity].
  destruct (body res); reflexivity.
Qed.

End MoreDwolla.

Section Sessions.

Variable svc : Services.

Lemma getUserInfo_run (u : string) (w : World) :
  exists w2 new,
    getUserInfo svc u w =
    (Return (if store_answers svc USER_COLLECTION_ID (Query_equal "userId" [u]) w
             then hd_error (user_documents_of u w)
             else None), w2) /\
    users w2 = users w /\ banks w2 = banks w /\ trace w2 = new ++ trace w.
Proof.
  pose proof (getUserInfo_value svc u w) as Hv.
  rewrite selected_user_documents_of in Hv.
  destruct (read_only_getUserInfo svc u w) as (Hu & Hb & new & Ht & _).
  destruct (getUserInfo svc u w) as [o w2]. cbn [fst snd] in *.
  exists w2, new. rewrite Hv. auto.
Qed.

Lemma user_document_found (u : string) (w : World) (d : Document) :
  hd_error (user_documents_of u w) = Some d ->
  In d (users w) /\ obj_get "userId" (attributes d) = JStr u.
Proof.
  intros H. apply hd_error_filter_in in H. destruct H as [Hin H].
  split; [exact Hin |]. unfold has_userId in H.
  destruct (obj_get "userId" (attributes d)); try discriminate H.
  apply String.eqb_eq in H. rewrite H. reflexivity.
Qed.

(** X18. When [signIn] returns a user, a session was created for the given
    email and password, the cookie [appwrite-session] was set to that
    session's secret, and the user returned is a document of the user
    collection whose [userId] is the session's user id; no collection was
    changed. *)
Theorem signIn_success (email_ password_ : string) (w w' : World) (u : Document) :
  signIn svc email_ password_ w = (Return (Some u), w') ->
  users w' = users w /\ banks w' = banks w /\
  exists session,
    In (CreateEmailPasswordSession email_ password_ (Ok session)) (trace w') /\
    In (CookiesSet "appwrite-session" (secret session) (Ok tt)) (trace w') /\
    In u (users w) /\
    obj_get "userId" (attributes u) = JStr (session_userId session).
Proof.
  destruct (read_only_signIn svc email_ password_ w) as (Hu & Hb & _).
  intros Hrun. rewrite Hrun in Hu, Hb. cbn [snd] in Hu, Hb.
  split; [exact Hu |]. split; [exact Hb |].
  revert Hrun.
  unfold signIn, or_null, signIn_body, admin_client, await, console_error, emit.
  run.
  destruct (createAdminClient svc w) as [[] | d]; run; [| discriminate].
  destruct (account_createEmailPasswordSession svc _ email_ password_)
    as [session | d]; run; [| discriminate].
  destruct (cookies_set svc _ "appwrite-session" (secret session)) as [[] | d];
    run; [| discriminate].
  match goal with
  | |- context [getUserInfo svc ?i ?w3] =>
      destruct (getUserInfo_run i w3) as (w4 & new & -> & Hu4 & _ & Ht4)
  end.
  run.
  destruct (store_answers svc USER_COLLECTION_ID _ _); run; [| discriminate].
  destruct (hd_error (user_documents_of (session_userId session) _)) as [d |] eqn:E;
    run; [| discriminate].
  intros [= <- <-].
  apply user_document_found in E. destruct E as [Hin Hid].
  exists session.
  split; [rewrite Ht4; apply in_or_app; right; right; left; reflexivity |].
  split; [rewrite Ht4; apply in_or_app; right; left; reflexivity |].
  split; [exact Hin | exact Hid].
Qed.


Lemma createDwollaCustomer_effect (c : NewDwollaCustomerParams) (w : World) :
  exists (url : option string) (w' : World) (new : list event),
    createDwollaCustomer svc c w = (Return url, w') /\
    users w' = users w /\ banks w' = banks w /\ trace w' = new ++ trace w /\
    (url = None \/
     exists u res,
       url = Some u /\ u <> "" /\
       In (DwollaPost "customers" (Some (customer_json c)) (Ok res)) new /\
       headers_location res = Some u).
Proof.
  unfold createDwollaCustomer, createDwollaCustomer_body, post, await,
    console_error, emit.
  run.
  destruct (dwollaClient_post svc w "customers" (Some (customer_json c)))
    as [res | d]; run.
  - eexists _, _, [_]. repeat split.
    destruct (or_undefined (headers_location res)) as [u |] eqn:E;
      [right | left; reflexivity].
    apply or_undefined_some in E. destruct E as [E Hne].
    exists u, res. repeat split; auto. left. reflexivity.
  - eexists _, _, [_; _]. repeat split. left. reflexivity.
Qed.

(** What a successful [signUp] has done. *)
Lemma signUp_success_inv (p : SignUpParams.t) (w w' : World) (doc : Document) :
  signUp svc p w = (Return (Some doc), w') ->
  users w' = users w ++ [doc] /\ banks w' = banks w /\
  exists (id aid url cid : string) (res : Response) (session : Session),
    attributes doc = newUserData p aid cid url /\
    In (AccountCreate id (SignUpParams.email p) (SignUpParams.password p)
          (fullName p) (Ok (Some aid))) (trace w') /\
    In (DwollaPost "customers" (Some (customer_json (dwollaPayload p))) (Ok res))
       (trace w') /\
    headers_location res = Some url /\
    extractCustomerIdFromUrl svc url = Ok cid /\
    In (CreateEmailPasswordSession (SignUpParams.email p) (SignUpParams.password p)
          (Ok session)) (trace w') /\
    In (CookiesSet "appwrite-session" (secret session) (Ok tt)) (trace w').
Proof.
  unfold signUp, or_null, signUp_body, admin_client, ID_unique_,
    database_createDocument, util, await, console_error, emit.
  run.
  destruct (createAdminClient svc w) as [[] | d]; run; [| discriminate].
  destruct (account_create svc _ _ _ _ _) as [[aid |] | d]; run;
    [| discriminate | discriminate].
  match goal with
  | |- context [createDwollaCustomer svc ?c ?w2] =>
      destruct (createDwollaCustomer_effect c w2)
        as (url & w3 & new & -> & Hu3 & Hb3 & Ht3 & Hurl)
  end.
  run.
  destruct Hurl as [-> | (u & res & -> & Hne & Hin & Hloc)]; run; [discriminate |].
  rewrite (truthy_nonempty u Hne). run.
  destruct (extractCustomerIdFromUrl svc u) as [cid | d] eqn:Ecid; run;
    [| discriminate].
  destruct (createDocument_fault svc w3 USER_COLLECTION_ID _) as [[] | d]; run;
    [| discriminate].
  destruct (account_createEmailPasswordSession svc _ _ _) as [session | d]; run;
    [| discriminate].
  destruct (cookies_set svc _ "appwrite-session" (secret session)) as [[] | d];
    run; [| discriminate].
  intros [= <- <-]. run.
  split; [rewrite Hu3; reflexivity |].
  split; [rewrite Hb3; reflexivity |].
  eexists _, aid, u, cid, res, session.
  split; [reflexivity |].
  split.
  { do 3 right. rewrite Ht3. apply in_or_app. right. left. reflexivity. }
  split.
  { do 3 right. rewrite Ht3. apply in_or_app. left. exact Hin. }
  split; [exact Hloc |]. split; [exact Ecid |].
  split; [right; left; reflexivity | left; reflexivity].
Qed.

(** X20. When [signUp] returns a document, exactly that one user document
    was appended and the ledger is unchanged.  The document has eleven
    attributes, among them neither the password nor the state; its
    [userId] is the id of the account just created, its [dwollaCustomerUrl]
    the location Dwolla gave to the new customer and its
    [dwollaCustomerId] what [extractCustomerIdFromUrl] made of that
    location.  The customer was registered with type "personal" and with
    the state. *)
Theorem signUp_success (p : SignUpParams.t) (w w' : World) (doc : Document) :
  signUp svc p w = (Return (Some doc), w') ->
  users w' = users w ++ [doc] /\ banks w' = banks w /\
  map fst (attributes doc) =
    [ "email"; "firstName"; "lastName"; "address1"; "city"; "postalCode";
      "dateOfBirth"; "ssn"; "userId"; "dwollaCustomerId"; "dwollaCustomerUrl" ] /\
  exists (id aid url cid : string) (res : Response),
    In (AccountCreate id (SignUpParams.email p) (SignUpParams.password p)
          (SignUpParams.firstName p ++ " " ++ SignUpParams.lastName p)
          (Ok (Some aid))) (trace w') /\
    obj_get "userId" (attributes doc) = JStr aid /\
    exists payload,
      In (DwollaPost "customers" (Some payload) (Ok res)) (trace w') /\
      json_at ["type"] payload = JStr "personal" /\
      json_at ["state"] payload = JStr (SignUpParams.state p) /\
      json_at ["email"] payload = JStr (SignUpParams.email p) /\
      headers_location res = Some url /\
      obj_get "dwollaCustomerUrl" (attributes doc) = JStr url /\
      extractCustomerIdFromUrl svc url = Ok cid /\
      obj_get "dwollaCustomerId" (attributes doc) = JStr cid.
Proof.
  intros Hrun.
  destruct (signUp_success_inv p w w' doc Hrun)
    as (Hu & Hb & id & aid & url & cid & res & session & Hattr & Hacc & Hpost
        & Hloc & Hcid & _ & _).
  split; [exact Hu |]. split; [exact Hb |].
  split; [rewrite Hattr; reflexivity |].
  exists id, aid, url, cid, res.
  split; [exact Hacc |].
  split; [rewrite Hattr; reflexivity |].
  exists (customer_json (dwollaPayload p)).
  split; [exact Hpost |].
  repeat (split; [reflexivity |]).
  split; [exact Hloc |].
  split; [rewrite Hattr; reflexivity |].
  split; [exact Hcid | rewrite Hattr; reflexivity].
Qed.

(** X21. Sign up, then read: [getUserInfo] for the new account id returns
    the document that [signUp] returned, provided no earlier user document
    carries that id and the store answers. *)
Theorem signUp_then_getUserInfo (p : SignUpParams.t) (w w' : World)
    (doc : Document) (aid : string) :
  signUp svc p w = (Return (Some doc), w') ->
  obj_get "userId" (attributes doc) = JStr aid ->
  (forall d, In d (users w) -> obj_get "userId" (attributes d) <> JStr aid) ->
  store_answers svc USER_COLLECTION_ID (Query_equal "userId" [aid]) w' = true ->
  fst (getUserInfo svc aid w') = Return (Some doc).
Proof.
  intros Hrun Haid Hfresh Hup.
  destruct (signUp_success_inv p w w' doc Hrun) as (Hu & _).
  rewrite getUserInfo_value, Hup, selected_user_documents_of.
  unfold user_documents_of. rewrite Hu. f_equal.
  apply hd_error_filter_first with (after := []).
  - intros x Hx. unfold has_userId. specialize (Hfresh x Hx).
    destruct (obj_get "userId" (attributes x)); try reflexivity.
    apply String.eqb_neq. intros ->. apply Hfresh. reflexivity.
  - unfold has_userId. rewrite Haid. apply String.eqb_refl.
Qed.


(** X23. Without a session, [getLoggedInUser] returns [null] and never
    reaches the database: when the session client cannot be created, or
    [account.get] is rejected, gives nothing or gives an empty [$id], no
    event of the call is an admin client, a listing or a write. *)
Theorem getLoggedInUser_without_session_skips_the_store (w : World) :
  (exists d, createSessionClient svc w = Fails d) \/
  (createSessionClient svc w = Ok tt /\
   let w1 := record_event (CreateSessionClient (Ok tt)) w in
   ((exists d, account_get svc w1 = Fails d) \/
    account_get svc w1 = Ok None \/ account_get svc w1 = Ok (Some ""))) ->
  exists w' new,
    getLoggedInUser svc w = (Return None, w') /\
    trace w' = new ++ trace w /\ existsb touches_store new = false.
Proof.
  unfold getLoggedInUser, or_null, getLoggedInUser_body, session_client, await,
    console_error, console_warn, emit.
  run.
  intros [(d & ->) | (-> & H)]; run.
  - eexists _, [_; _]. repeat split.
  - cbv zeta in H. destruct H as [(d & ->) | [-> | ->]]; run.
    + eexists _, [_; _; _]. repeat split.
    + eexists _, [_; _; _]. repeat split.
    + cbn [truthy String.eqb]. run. eexists _, [_; _; _]. repeat split.
Qed.

(** X24. When [getLoggedInUser] returns a user, [account.get] gave a
    non-empty account id and the user is a document of the user collection
    whose [userId] is that id; no collection was changed. *)
Theorem getLoggedInUser_success (w w' : World) (u : Document) :
  getLoggedInUser svc w = (Return (Some u), w') ->
  users w' = users w /\ banks w' = banks w /\
  exists aid,
    In (AccountGet (Ok (Some aid))) (trace w') /\ aid <> "" /\
    In u (users w) /\ obj_get "userId" (attributes u) = JStr aid.
Proof.
  destruct (read_only_getLoggedInUser svc w) as (Hu & Hb & _).
  intros Hrun. rewrite Hrun in Hu, Hb. cbn [snd] in Hu, Hb.
  split; [exact Hu |]. split; [exact Hb |].
  revert Hrun.
  unfold getLoggedInUser, or_null, getLoggedInUser_body, session_client, await,
    console_error, console_warn, emit.
  run.
  destruct (createSessionClient svc w) as [[] | d]; run; [| discriminate].
  destruct (account_get svc _) as [[aid |] | d]; run;
    [| discriminate | discriminate].
  destruct (truthy (Some aid)) eqn:Eaid; run; [| discriminate].
  match goal with
  | |- context [getUserInfo svc ?i ?w3] =>
      destruct (getUserInfo_run i w3) as (w4 & new & -> & Hu4 & _ & Ht4)
  end.
  run.
  destruct (store_answers svc USER_COLLECTION_ID _ _); run; [| discriminate].
  destruct (hd_error (user_documents_of aid _)) as [d |] eqn:E;
    run; [| discriminate].
  intros [= <- <-].
  apply user_document_found in E. destruct E as [Hin Hid].
  exists aid.
  split; [rewrite Ht4; apply in_or_app; right; left; reflexivity |].
  split; [apply truthy_some; exact Eaid |].
  split; [exact Hin | exact Hid].
Qed.

(** X25. [logoutAccount] has four possible courses.  It deletes the cookie
    before the session, so a failed session deletion leaves the cookie
    deleted; it returns [undefined] only when both deletions went
    through, and [null], after logging, when the session client, the cookie
    deletion or the session deletion failed; later steps are skipped. *)
Theorem logoutAccount_outcomes (w : World) :
  let opened := CreateSessionClient (Ok tt) in
  let cleared := CookiesDelete "appwrite-session" (Ok tt) in
  let logged := ConsoleError "[logoutAccount] Error:" in
  logoutAccount svc w =
    (Return Undefined,
     {| users := users w; banks := banks w;
        trace := DeleteSession "current" (Ok tt) :: cleared :: opened :: trace w |}) \/
  (exists d,
     logoutAccount svc w =
     (Return Null,
      {| users := users w; banks := banks w;
         trace := logged (Rejected d) :: DeleteSession "current" (Fails d)
                  :: cleared :: opened :: trace w |})) \/
  (exists d,
     logoutAccount svc w =
     (Return Null,
      {| users := users w; banks := banks w;
         trace := logged (Rejected d) :: CookiesDelete "appwrite-session" (Fails d)
                  :: opened :: trace w |})) \/
  (exists d,
     logoutAccount svc w =
     (Return Null,
      {| users := users w; banks := banks w;
         trace := logged (Rejected d) :: CreateSessionClient (Fails d) :: trace w |})).
Proof.
  intros opened cleared logged.
  unfold logoutAccount, logoutAccount_body, session_client, await, console_error,
    emit.
  run.
  destruct (createSessionClient svc w) as [[] | d]; run.
  - destruct (cookies_delete svc _ "appwrite-session") as [[] | d]; run.
    + destruct (account_deleteSession svc _ "current") as [[] | d]; run.
      * left. reflexivity.
      * right. left. exists d. reflexivity.
    + right. right. left. exists d. reflexivity.
  - right. right. right. exists d. reflexivity.
Qed.

(** X26. [createLinkToken] asks Plaid once for a link token, for the user's
    [$id] as client user id, the client name "first last", the product
    [auth], the language [en] and the country [US]; it returns the token
    wrapped as [{linkToken}], or logs and returns [null] when Plaid
    rejects the request. *)
Theorem createLinkToken_request_and_result (user : User) (w : World) :
  exists request : LinkTokenCreateRequest,
    client_user_id request = user_id user /\
    client_name request = (user_firstName user ++ " " ++ user_lastName user)%string /\
    products request = ["auth"] /\
    language request = "en" /\
    country_codes request = ["US"] /\
    match linkTokenCreate svc w request with
    | Ok link_token =>
        createLinkToken svc user w =
        (Return (Some {| linkToken := link_token |}),
         record_event (LinkTokenCreate request (Ok link_token)) w)
    | Fails d =>
        createLinkToken svc user w =
        (Return None,
         record_event (ConsoleError "[createLinkToken] Error:" (Rejected d))
           (record_event (LinkTokenCreate request (Fails d)) w))
    end.
Proof.
  exists {| client_user_id := user_id user;
            client_name := user_firstName user ++ " " ++ user_lastName user;
            products := ["auth"];
            language := "en";
            country_codes := ["US"] |}.
  repeat (split; [reflexivity |]).
  unfold createLinkToken, or_null, createLinkToken_body, await, console_error, emit.
  run.
  match goal with
  | |- context [linkTokenCreate svc w ?r] => destruct (linkTokenCreate svc w r)
  end; reflexivity.
Qed.

End Sessions.


Lemma getBank_finds_by_document_id_witness :
  (In Scenario.link_a1 (banks Variation.linked) /\
   fst (getBank Scenario.healthy "doc_0" Variation.linked) =
     Return (Some Scenario.link_a1)) /\
  fst (getBank Scenario.healthy "doc_9" Variation.linked) = Return None.
Proof.
  split.
  - split; [left; reflexivity |].
    destruct (proj1 (proj2 (getBank_finds_by_document_id Scenario.healthy "doc_0"
                              Variation.linked))
                eq_refl Scenario.link_a1 (or_introl eq_refl) eq_refl) as (d' & Hd').
    reflexivity.
  - apply (proj2 (proj2 (getBank_finds_by_document_id Scenario.healthy "doc_9"
                           Variation.linked))).
    intros d [<- | []]. vm_compute. discriminate.
Defined.

Lemma getBanks_lists_the_links_of_the_user_witness :
  let down := Scenario.services [Scenario.checking] true true false
                (fun id => Ok (Scenario.encode id)) in
  fst (getBanks Scenario.healthy "user_1" Variation.linked) =
    Return (Some [Scenario.link_a1]) /\
  fst (getBanks down "user_1" Variation.linked) = Return None.
Proof.
  intro down. split.
  - apply (proj1 (getBanks_lists_the_links_of_the_user Scenario.healthy "user_1"
                    Variation.linked)).
    reflexivity.
  - apply (proj2 (getBanks_lists_the_links_of_the_user down "user_1"
                    Variation.linked)).
    reflexivity.
Defined.

Lemma getUserInfo_returns_the_first_match_witness :
  let w := {| users := [Variation.alice_document; Variation.alice_duplicate];
              banks := []; trace := [] |} in
  obj_get "userId" (attributes Variation.alice_duplicate) = JStr "user_1" /\
  fst (getUserInfo Scenario.healthy "user_1" w) = Return (Some Variation.alice_document).
Proof.
  intro w. split; [reflexivity |].
  apply (getUserInfo_returns_the_first_match Scenario.healthy "user_1" w []
           [Variation.alice_duplicate] Variation.alice_document).
  - reflexivity.
  - reflexivity.
  - intros x [].
  - reflexivity.
Defined.

Lemma createBankAccount_then_getBank_witness :
  let w1 := snd (createBankAccount Scenario.healthy Variation.a1_props
                   Variation.registered) in
  createBankAccount Scenario.healthy Variation.a1_props Variation.registered =
    (Return (Some {| dollar_id := "doc_1";
                     attributes := attributes Scenario.link_a1 |}), w1) /\
  fst (getBank Scenario.healthy "doc_1" w1) =
    Return (Some {| dollar_id := "doc_1"; attributes := attributes Scenario.link_a1 |}).
Proof.
  intro w1. split; [vm_compute; reflexivity |].
  apply (createBankAccount_then_getBank Scenario.healthy Variation.a1_props
           Variation.registered w1
           {| dollar_id := "doc_1"; attributes := attributes Scenario.link_a1 |}).
  - vm_compute; reflexivity.
  - intros d [].
  - reflexivity.
Defined.

Lemma createBankAccount_then_getBanks_witness :
  let w1 := snd (createBankAccount Scenario.healthy Variation.a1_props
                   Variation.linked) in
  let doc := {| dollar_id := "doc_2"; attributes := attributes Scenario.link_a1 |} in
  fst (getBanks Scenario.healthy "user_1" w1) = Return (Some [Scenario.link_a1; doc]).
Proof.
  intros w1 doc.
  apply (createBankAccount_then_getBanks Scenario.healthy Variation.a1_props
           Variation.linked w1 doc).
  - vm_compute; reflexivity.
  - reflexivity.
Defined.

Lemma createBankAccount_then_getBankByAccountId_witness :
  let once := snd (createBankAccount Scenario.healthy Variation.a1_props
                     Variation.registered) in
  let twice := snd (createBankAccount Scenario.healthy Variation.a1_props once) in
  fst (getBankByAccountId Scenario.healthy "a1" once) =
    Return (Some {| dollar_id := "doc_1"; attributes := attributes Scenario.link_a1 |}) /\
  fst (getBankByAccountId Scenario.healthy "a1" twice) = Return None.
Proof.
  intros once twice. split.
  - apply (createBankAccount_then_getBankByAccountId Scenario.healthy
             Variation.a1_props Variation.registered once
             {| dollar_id := "doc_1"; attributes := attributes Scenario.link_a1 |}
             "a1").
    + vm_compute; reflexivity.
    + reflexivity.
    + reflexivity.
  - apply (createBankAccount_then_getBankByAccountId Scenario.healthy
             Variation.a1_props once twice
             {| dollar_id := "doc_2"; attributes := attributes Scenario.link_a1 |}
             "a1").
    + vm_compute; reflexivity.
    + reflexivity.
    + reflexivity.
Defined.

Lemma plaid_failure_aborts_before_dwolla_witness :
  let tokens := ("acc_1", "item_1") in
  let no_accounts :=
    Variation.with_accountsGet (fun _ _ => Fails "ITEM_LOGIN_REQUIRED")
      Scenario.healthy in
  let no_processor :=
    Variation.with_processorTokenCreate (fun _ _ => Fails "INVALID_PRODUCT")
      Scenario.healthy in
  (exists w',
     exchangePublicToken no_accounts "tok_valid" Scenario.alice Scenario.genesis =
       (Return None, w') /\
     users w' = [] /\ banks w' = [] /\
     trace w' =
       [ ConsoleError "[exchangePublicToken] Error:" (Rejected "ITEM_LOGIN_REQUIRED");
         AccountsGet "acc_1" (Fails "ITEM_LOGIN_REQUIRED");
         ItemPublicTokenExchange "tok_valid" (Ok tokens) ]) /\
  (exists w',
     exchangePublicToken no_processor "tok_valid" Scenario.alice Scenario.genesis =
       (Return None, w') /\
     users w' = [] /\ banks w' = [] /\
     trace w' =
       [ ConsoleError "[exchangePublicToken] Error:" (Rejected "INVALID_PRODUCT");
         ProcessorTokenCreate (processor_request tokens Scenario.checking)
           (Fails "INVALID_PRODUCT");
         AccountsGet "acc_1" (Ok [Scenario.checking]);
         ItemPublicTokenExchange "tok_valid" (Ok tokens) ]).
Proof.
  intros tokens no_accounts no_processor. split.
  - apply (proj1 (plaid_failure_aborts_before_dwolla no_accounts "tok_valid"
                    Scenario.alice Scenario.genesis tokens Scenario.checking []
                    "ITEM_LOGIN_REQUIRED" eq_refl)).
    reflexivity.
  - apply (proj2 (plaid_failure_aborts_before_dwolla no_processor "tok_valid"
                    Scenario.alice Scenario.genesis tokens Scenario.checking []
                    "INVALID_PRODUCT" eq_refl));
      reflexivity.
Defined.

Lemma encoding_failure_leaves_the_funding_source_witness :
  let svc := Scenario.services [Scenario.checking] true true true
               (fun _ => Fails "InvalidCharacterError") in
  exists w' new res,
    exchangePublicToken svc "tok_valid" Scenario.alice Scenario.genesis =
      (Return None, w') /\
    users w' = [] /\ banks w' = [] /\
    trace w' =
      ConsoleError "[exchangePublicToken] Error:" (Rejected "InvalidCharacterError")
      :: trace (snd (addFundingSource svc
                       (funding_request Scenario.alice Scenario.checking "proc_1")
                       (after_processor_token "tok_valid" ("acc_1", "item_1")
                          [Scenario.checking] Scenario.checking "proc_1"
                          Scenario.genesis))) /\
    trace w' = new ++ [] /\ existsb persists new = false /\
    In (DwollaPost "customers/cust_1/funding-sources"
          (Some (JObj [ ("name", JStr "Checking"); ("plaidToken", JStr "proc_1") ]))
          (Ok res)) (trace w') /\
    headers_location res = Some Scenario.fs1.
Proof.
  intro svc.
  apply (encoding_failure_leaves_the_funding_source svc "tok_valid" Scenario.alice
           Scenario.genesis ("acc_1", "item_1") Scenario.checking [] "a1" "proc_1"
           Scenario.fs1
           (snd (addFundingSource svc
                   (funding_request Scenario.alice Scenario.checking "proc_1")
                   (after_processor_token "tok_valid" ("acc_1", "item_1")
                      [Scenario.checking] Scenario.checking "proc_1"
                      Scenario.genesis)))
           (Fails "InvalidCharacterError"));
    try (vm_compute; reflexivity).
  - discriminate.
  - right. exists "InvalidCharacterError". reflexivity.
Defined.

Lemma revalidation_failure_hides_a_committed_link_witness :
  let svc := Variation.with_next_revalidatePath
               (fun _ _ => Fails "static generation store missing")
               Scenario.healthy in
  exists w',
    exchangePublicToken svc "tok_valid" Scenario.alice Scenario.genesis =
      (Return None, w') /\
    banks w' = [Scenario.link_a1].
Proof.
  intro svc.
  pose (w4 := snd (addFundingSource svc
                     (funding_request Scenario.alice Scenario.checking "proc_1")
                     (after_processor_token "tok_valid" ("acc_1", "item_1")
                        [Scenario.checking] Scenario.checking "proc_1"
                        Scenario.genesis))).
  pose (w5 := snd (createBankAccount svc
                     (link_props Scenario.alice ("acc_1", "item_1")
                        Scenario.checking Scenario.fs1 "id:a1") w4)).
  destruct (revalidation_failure_hides_a_committed_link svc "tok_valid"
              Scenario.alice Scenario.genesis ("acc_1", "item_1") Scenario.checking
              [] "a1" "proc_1" Scenario.fs1 "id:a1"
              "static generation store missing" w4 w5 Scenario.link_a1)
    as (w' & Hrun & Hb & _);
    try (vm_compute; reflexivity); try discriminate.
  exists w'. split; [exact Hrun | exact Hb].
Defined.

Lemma committed_link_has_the_record_layout_witness :
  let w' := snd (exchangePublicToken Scenario.healthy "tok_valid" Scenario.alice
                   Scenario.genesis) in
  exists (doc : Document) (shareable : string),
    banks w' = [doc] /\
    obj_get "shareableId" (attributes doc) = JStr shareable /\
    obj_get "bankId" (attributes doc) = JStr "item_1" /\
    Scenario.decode shareable = "a1".
Proof.
  intro w'.
  destruct (committed_link_has_the_record_layout Scenario.healthy Scenario.decode
              "tok_valid" Scenario.alice Scenario.genesis w' complete)
    as (doc & tokens & first & rest & id & pt & url & s & res & _ & Hb & Hattr
        & Hex & Hacc & Hid & _ & _ & Hdec).
  - intros id s [= <-]. reflexivity.
  - vm_compute; reflexivity.
  - vm_compute. discriminate.
  - exists doc, s. split; [exact Hb |]. split; [rewrite Hattr; reflexivity |].
    vm_compute in Hex, Hacc.
    repeat (destruct Hex as [Hex | Hex]; [try discriminate Hex |]);
      [| contradiction].
    repeat (destruct Hacc as [Hacc | Hacc]; [try discriminate Hacc |]);
      [| contradiction].
    injection Hex as <-. injection Hacc as <- _.
    split; [rewrite Hattr; reflexivity |].
    rewrite Hdec. injection Hid as <-. reflexivity.
Defined.

Lemma linked_account_is_found_by_its_account_id_witness :
  let w' := snd (exchangePublicToken Scenario.healthy "tok_valid" Scenario.alice
                   Scenario.genesis) in
  exists (doc : Document) (id : string),
    banks w' = banks Scenario.genesis ++ [doc] /\
    obj_get "accountId" (attributes doc) = JStr id /\
    (store_answers Scenario.healthy BANK_COLLECTION_ID
       (Query_equal "accountId" [id]) w' = true ->
     fst (getBankByAccountId Scenario.healthy id w') =
     Return (match bank_links_for id Scenario.genesis with
             | [] => Some doc
             | _ :: _ => None
             end)).
Proof.
  intro w'.
  apply (linked_account_is_found_by_its_account_id Scenario.healthy "tok_valid"
           Scenario.alice Scenario.genesis w' complete).
  - vm_compute; reflexivity.
  - vm_compute. discriminate.
Defined.

Lemma dwolla_references_are_locations_witness :
  fst (createTransfer Scenario.healthy
         {| sourceFundingSourceUrl := Scenario.fs1;
            destinationFundingSourceUrl := "https://api.dwolla.com/funding-sources/fs2";
            amount := "25.00" |} Scenario.genesis) =
    Return (Some "https://api.dwolla.com/transfers/t1") /\
  "https://api.dwolla.com/transfers/t1" <> "".
Proof.
  split; [reflexivity |].
  apply (proj1 (proj2 (proj2 (dwolla_references_are_locations Scenario.healthy
                                Scenario.genesis
                                "https://api.dwolla.com/transfers/t1")))
           {| sourceFundingSourceUrl := Scenario.fs1;
              destinationFundingSourceUrl := "https://api.dwolla.com/funding-sources/fs2";
              amount := "25.00" |} eq_refl).
Defined.

Lemma signIn_success_witness :
  let w' := snd (signIn Scenario.healthy "alice@example.com" "pw"
                   Variation.registered) in
  signIn Scenario.healthy "alice@example.com" "pw" Variation.registered =
    (Return (Some Variation.alice_document), w') /\
  users w' = users Variation.registered /\ banks w' = banks Variation.registered /\
  exists session,
    In (CreateEmailPasswordSession "alice@example.com" "pw" (Ok session)) (trace w') /\
    In (CookiesSet "appwrite-session" (secret session) (Ok tt)) (trace w') /\
    In Variation.alice_document (users Variation.registered) /\
    obj_get "userId" (attributes Variation.alice_document) =
      JStr (session_userId session).
Proof.
  intro w'. split; [vm_compute; reflexivity |].
  apply (signIn_success Scenario.healthy "alice@example.com" "pw"
           Variation.registered w' Variation.alice_document).
  vm_compute; reflexivity.
Defined.


Lemma signUp_success_witness :
  let w' := snd (signUp Variation.onboarding Variation.bob Scenario.genesis) in
  exists doc,
    signUp Variation.onboarding Variation.bob Scenario.genesis =
      (Return (Some doc), w') /\
    users w' = [doc] /\ banks w' = [] /\
    map fst (attributes doc) =
      [ "email"; "firstName"; "lastName"; "address1"; "city"; "postalCode";
        "dateOfBirth"; "ssn"; "userId"; "dwollaCustomerId"; "dwollaCustomerUrl" ].
Proof.
  intro w'.
  eexists. split; [vm_compute; reflexivity |].
  match goal with
  | |- users _ = [?doc] /\ _ =>
      destruct (signUp_success Variation.onboarding Variation.bob Scenario.genesis
                  w' doc) as (Hu & Hb & Hkeys & _)
  end.
  - vm_compute; reflexivity.
  - split; [exact Hu |]. split; [exact Hb | exact Hkeys].
Defined.

Lemma signUp_then_getUserInfo_witness :
  let w' := snd (signUp Variation.onboarding Variation.bob Variation.registered) in
  exists doc,
    signUp Variation.onboarding Variation.bob Variation.registered =
      (Return (Some doc), w') /\
    fst (getUserInfo Variation.onboarding "doc_1" w') = Return (Some doc).
Proof.
  intro w'.
  eexists. split; [vm_compute; reflexivity |].
  match goal with
  | |- _ = Return (Some ?doc) =>
      apply (signUp_then_getUserInfo Variation.onboarding Variation.bob
               Variation.registered w' doc "doc_1")
  end.
  - vm_compute; reflexivity.
  - reflexivity.
  - intros d [<- | []]. vm_compute. discriminate.
  - reflexivity.
Defined.


Lemma getLoggedInUser_without_session_skips_the_store_witness :
  let down := Scenario.services [Scenario.checking] true true false
                (fun id => Ok (Scenario.encode id)) in
  createSessionClient down Variation.registered = Fails "store unavailable" /\
  exists w' new,
    getLoggedInUser down Variation.registered = (Return None, w') /\
    trace w' = new ++ [] /\ existsb touches_store new = false.
Proof.
  intro down. split; [reflexivity |].
  apply (getLoggedInUser_without_session_skips_the_store down Variation.registered).
  left. exists "store unavailable". reflexivity.
Defined.

Lemma getLoggedInUser_success_witness :
  let w' := snd (getLoggedInUser Scenario.healthy Variation.registered) in
  getLoggedInUser Scenario.healthy Variation.registered =
    (Return (Some Variation.alice_document), w') /\
  users w' = [Variation.alice_document] /\ banks w' = [] /\
  exists aid,
    In (AccountGet (Ok (Some aid))) (trace w') /\ aid <> "" /\
    In Variation.alice_document [Variation.alice_document] /\
    obj_get "userId" (attributes Variation.alice_document) = JStr aid.
Proof.
  intro w'. split; [vm_compute; reflexivity |].
  apply (getLoggedInUser_success Scenario.healthy Variation.registered w'
           Variation.alice_document).
  vm_compute; reflexivity.
Defined.

(** ** The home page *)

Section HomeFacts.

Variable number : Type.
Variable svc : Services.
Variable Number_ : option string -> number.
Variable number_falsy : number -> bool.
Variable one : number.
Variable getAccounts : string -> M (option (Accounts number)).
Variable getAccount : json -> M json.

(** X27. When [getLoggedInUser] gives no user, [Home] renders the request to
    sign in and does nothing else: whatever [getAccounts] and [getAccount]
    would do, the world is the one [getLoggedInUser] left. *)
Theorem Home_asks_to_sign_in (searchParams : SearchParamProps.t) (w : World) :
  fst (getLoggedInUser svc w) = Return None ->
  Home svc Number_ number_falsy one getAccounts getAccount searchParams w =
  (Return (Message please_sign_in), snd (getLoggedInUser svc w)).
Proof.
  intros H. unfold Home. run.
  destruct (getLoggedInUser svc w) as [[v | e] w1]; cbn [fst snd] in *;
    [| discriminate H].
  injection H as ->. reflexivity.
Qed.

(** X28. When the user is logged in and [getAccounts], asked with the [$id]
    of the user document, gives nothing, no [data] or an empty list, [Home]
    renders "No account information available for your user." and never
    asks [getAccount]. *)
Theorem Home_without_accounts (searchParams : SearchParamProps.t) (w w1 w2 : World)
    (u : Document) (r : option (Accounts number)) :
  getLoggedInUser svc w = (Return (Some u), w1) ->
  getAccounts (dollar_id u) w1 = (Return r, w2) ->
  (r = None \/ exists a, r = Some a /\ (data a = None \/ data a = Some [])) ->
  Home svc Number_ number_falsy one getAccounts getAccount searchParams w = (Return (Message no_account_information), w2).
Proof.
  intros H1 H2 H3. unfold Home. run. rewrite H1, H2.
  destruct H3 as [-> | (a & -> & [Hd | Hd])]; try rewrite Hd; reflexivity.
Qed.

(** X29. With a user and at least one account, [Home] renders the
    dashboard.  The account shown is the one named by the [id] search
    parameter when that is a non-empty string, and the first account's
    [appwriteItemId] otherwise; the balance box and the transactions get all
    accounts, the sidebar the first two at most; the greeting is the user's
    first name, and "Guest" exactly when the first name is missing, [null]
    or empty; the page is [Number(page) || 1] and the totals are those of
    [getAccounts]. *)
Theorem Home_dashboard (searchParams : SearchParamProps.t) (w w1 w2 w3 : World)
    (u : Document) (a : Accounts number) (first : json) (rest : list json)
    (account : json) :
  getLoggedInUser svc w = (Return (Some u), w1) ->
  getAccounts (dollar_id u) w1 = (Return (Some a), w2) ->
  data a = Some (first :: rest) ->
  getAccount (if truthy (SearchParamProps.id searchParams)
              then jstr (SearchParamProps.id searchParams)
              else optional_property first "appwriteItemId") w2 =
    (Return account, w3) ->
  exists header total recent sidebar,
    Home svc Number_ number_falsy one getAccounts getAccount searchParams w = (Return (Dashboard header total recent sidebar), w3) /\
    (forall i, SearchParamProps.id searchParams = Some i -> i <> "" ->
               recent_appwriteItemId recent = JStr i) /\
    (truthy (SearchParamProps.id searchParams) = false ->
     recent_appwriteItemId recent = optional_property first "appwriteItemId") /\
    total_accounts total = first :: rest /\
    recent_accounts recent = first :: rest /\
    sidebar_banks sidebar = firstn 2 (first :: rest) /\
    length (sidebar_banks sidebar) <= 2 /\
    sidebar_user sidebar = u /\
    header_user header =
      match obj_get "firstName" (attributes u) with
      | JUndefined | JNull => JStr "Guest"
      | JStr firstName_ =>
          if String.eqb firstName_ "" then JStr "Guest" else JStr firstName_
      | JObj fields => JObj fields
      end /\
    recent_transactions recent = optional_property account "transactions" /\
    sidebar_transactions sidebar = optional_property account "transactions" /\
    recent_page recent =
      (if number_falsy (Number_ (SearchParamProps.page searchParams))
       then one
       else Number_ (SearchParamProps.page searchParams)) /\
    total_totalBanks total = totalBanks a /\
    total_totalCurrentBalance total = totalCurrentBalance a.
Proof.
  intros H1 H2 H3 H4. unfold Home. run. rewrite H1, H2, H3, H4.
  eexists _, _, _, _. split; [reflexivity |].
  cbn [recent_appwriteItemId total_accounts recent_accounts sidebar_banks
       sidebar_user header_user recent_transactions sidebar_transactions
       recent_page total_totalBanks total_totalCurrentBalance].
  split.
  { intros i Hi Hne. rewrite Hi. rewrite (truthy_nonempty i Hne). reflexivity. }
  split; [intros ->; reflexivity |].
  split; [reflexivity |]. split; [reflexivity |]. split; [reflexivity |].
  split; [apply firstn_le_length |]. split; [reflexivity |].
  split; [| repeat split].
  unfold json_truthy.
  destruct (obj_get "firstName" (attributes u)) as [ | | firstName_ | fields];
    try reflexivity.
  destruct (String.eqb firstName_ ""); reflexivity.
Qed.

(** X30. [Home] has no handler of its own: an exception of [getAccounts]
    or of [getAccount] leaves [Home] as it is, unlike the actions, which
    turn every exception into [null]. *)
Theorem Home_lets_exceptions_through (searchParams : SearchParamProps.t)
    (w w1 : World) (u : Document) (e : error) :
  getLoggedInUser svc w = (Return (Some u), w1) ->
  (forall w2, getAccounts (dollar_id u) w1 = (Throw e, w2) ->
              Home svc Number_ number_falsy one getAccounts getAccount searchParams w = (Throw e, w2)) /\
  (forall w2 w3 a first rest,
     getAccounts (dollar_id u) w1 = (Return (Some a), w2) ->
     data a = Some (first :: rest) ->
     getAccount (if truthy (SearchParamProps.id searchParams)
                 then jstr (SearchParamProps.id searchParams)
                 else optional_property first "appwriteItemId") w2 = (Throw e, w3) ->
     Home svc Number_ number_falsy one getAccounts getAccount searchParams w = (Throw e, w3)).
Proof.
  intros H1. split.
  - intros w2 H2. unfold Home. run. rewrite H1, H2. reflexivity.
  - intros w2 w3 a first rest H2 H3 H4. unfold Home. run.
    rewrite H1, H2, H3, H4. reflexivity.
Qed.

End HomeFacts.

(** No user document for the session: the bank actions are never reached. *)
Lemma Home_asks_to_sign_in_witness :
  let params := {| SearchParamProps.id := None; SearchParamProps.page := None |} in
  fst (getLoggedInUser Scenario.healthy Scenario.genesis) = Return None /\
  HomeScenario.home (fun _ => raise (Rejected "bank actions unavailable"))
    (fun _ => raise (Rejected "bank actions unavailable")) params Scenario.genesis =
  (Return (Message please_sign_in),
   snd (getLoggedInUser Scenario.healthy Scenario.genesis)).
Proof.
  intro params. split; [reflexivity |].
  apply (Home_asks_to_sign_in nat Scenario.healthy HomeScenario.Number_ (Nat.eqb 0) 1
           (fun _ => raise (Rejected "bank actions unavailable"))
           (fun _ => raise (Rejected "bank actions unavailable"))
           params Scenario.genesis).
  reflexivity.
Defined.

Lemma Home_without_accounts_witness :
  let params := {| SearchParamProps.id := None; SearchParamProps.page := None |} in
  let w1 := snd (getLoggedInUser Scenario.healthy Variation.registered) in
  let nothing := {| data := Some []; totalBanks := 0; totalCurrentBalance := 0 |} in
  HomeScenario.home (fun _ => ret (Some nothing))
    (fun _ => raise (Rejected "bank actions unavailable")) params
    Variation.registered =
  (Return (Message no_account_information), w1).
Proof.
  intros params w1 nothing.
  apply (Home_without_accounts nat Scenario.healthy HomeScenario.Number_ (Nat.eqb 0) 1
           (fun _ => ret (Some nothing))
           (fun _ => raise (Rejected "bank actions unavailable"))
           params Variation.registered w1 w1 Variation.alice_document (Some nothing)).
  - vm_compute; reflexivity.
  - reflexivity.
  - right. exists nothing. split; [reflexivity | right; reflexivity].
Defined.

Lemma Home_dashboard_witness :
  let params := {| SearchParamProps.id := Some ""; SearchParamProps.page := Some "2" |} in
  let w1 := snd (getLoggedInUser Scenario.healthy Variation.registered) in
  exists header total recent sidebar,
    HomeScenario.home (fun _ => ret (Some HomeScenario.three_accounts))
      (fun _ => ret HomeScenario.statement) params Variation.registered =
      (Return (Dashboard header total recent sidebar), w1) /\
    recent_appwriteItemId recent = JStr "doc_0" /\
    sidebar_banks sidebar =
      [HomeScenario.checking_account; HomeScenario.savings_account] /\
    header_user header = JStr "Alice" /\
    recent_page recent = 2.
Proof.
  intros params w1.
  destruct (Home_dashboard nat Scenario.healthy HomeScenario.Number_ (Nat.eqb 0) 1
              (fun _ => ret (Some HomeScenario.three_accounts))
              (fun _ => ret HomeScenario.statement)
              params Variation.registered w1 w1 w1 Variation.alice_document
              HomeScenario.three_accounts HomeScenario.checking_account
              [HomeScenario.savings_account; HomeScenario.card_account]
              HomeScenario.statement)
    as (header & total & recent & sidebar & Hrun & _ & Hitem & _ & _ & Hbanks & _
        & _ & Huser & _ & _ & Hpage & _);
    try (vm_compute; reflexivity).
  exists header, total, recent, sidebar.
  split; [exact Hrun |].
  split; [apply Hitem; reflexivity |].
  split; [exact Hbanks |].
  split; [exact Huser | exact Hpage].
Defined.

Lemma Home_lets_exceptions_through_witness :
  let params := {| SearchParamProps.id := None; SearchParamProps.page := None |} in
  let w1 := snd (getLoggedInUser Scenario.healthy Variation.registered) in
  HomeScenario.home (fun _ => raise (Rejected "bank actions unavailable"))
    (fun _ => ret HomeScenario.statement) params Variation.registered =
  (Throw (Rejected "bank actions unavailable"), w1).
Proof.
  intros params w1.
  destruct (Home_lets_exceptions_through nat Scenario.healthy
              HomeScenario.Number_ (Nat.eqb 0) 1
              (fun _ => raise (Rejected "bank actions unavailable"))
              (fun _ => ret HomeScenario.statement)
              params Variation.registered w1 Variation.alice_document
              (Rejected "bank actions unavailable")) as [H _].
  - vm_compute; reflexivity.
  - apply H. reflexivity.
Defined.
